(** * x32-audio: the brain-side decision engine ([src/brain_core.py])

    A shallow embedding of the fader curve ([fader_to_db], [db_to_fader]),
    of the channel table ([ChannelStrip], [BrainCore.channels]) and of the
    decision cycle ([BrainCore.process_telemetry],
    [BrainCore.run_mixing_logic]), followed by the properties of the
    specification that concern them.

    Numbers.  Python's floats are idealised as exact rationals ([Q]): every
    literal of the source is a decimal fraction and is written here with the
    same digits.  Equality of computed values is [Qeq] ([==]).  The module
    [Binary64] repeats the two curve functions on IEEE binary64 numbers, to
    replay the values the statements cite in the arithmetic Python uses.

    Dictionaries.  [self.channels] and the telemetry payload are Python
    dicts, which iterate in insertion order; they are association lists
    here, in that order.

    Effects.  A decision cycle mutates the channel table, writes to the
    logger, publishes commands on the bus and may raise; the embedding threads
    all four explicitly through a [Result].

    The edge node ([src/edge_node.py]) is embedded where it meets the brain:
    the telemetry message it builds and the pace at which it publishes
    ([telemetry_loop]), and the relay of commands to the console
    ([on_mqtt_message]); the clock, the snapshot of the meter and the outcome
    of a publish are inputs. *)

From Stdlib Require Import QArith Qabs ZArith Lqa Lia.
From Stdlib Require Import Bool List String Ascii DecimalString.
From Stdlib Require Import Permutation DecimalZ DecimalPos.
From Stdlib Require PrimFloat.
Import ListNotations.

Open Scope Q_scope.

(** ** Python primitives used by the source *)

Module Py.

(** [a >= b], [a > b] and [a < b] on numbers. *)
Definition ge (a b : Q) : bool := Qle_bool b a.
Definition gt (a b : Q) : bool := negb (Qle_bool a b).
Definition lt (a b : Q) : bool := negb (Qle_bool b a).

(** [max(a, b)]: the first argument unless the second is strictly greater. *)
Definition max (a b : Q) : Q := if gt b a then b else a.

(** [int(s)] on a string: an optional sign followed by one or more ASCII
    digits.  [int] also accepts surrounding whitespace, underscores between
    digits and non-ASCII digits; those forms are not modelled and count as
    a [ValueError] here, so whenever [int s = Some n] Python returns [n]. *)
Definition digits (s : string) : option Z :=
  option_map Z.of_uint (NilZero.uint_of_string s).

Definition int (s : string) : option Z :=
  match s with
  | String "+" s' => digits s'
  | String "-" s' => option_map Z.opp (digits s')
  | _ => digits s
  end.

(** [str(n)] for an integer. *)
Definition str (n : Z) : string := NilZero.string_of_int (Z.to_int n).

(** [f"{n:02d}"]: decimal, padded with zeros to a width of two; a sign
    counts towards the width, so only 0..9 are padded. *)
Definition format_02d (n : Z) : string :=
  let s := str n in
  if (String.length s <? 2)%nat then ("0" ++ s)%string else s.

(** A dict as an insertion-ordered association list. *)
Section Dict.
Context {V : Type}.

Definition dict := list (string * V).

(** [d.get(k)] *)
Fixpoint get (k : string) (d : dict) : option V :=
  match d with
  | [] => None
  | (k', v) :: d' => if String.eqb k k' then Some v else get k d'
  end.

(** [k in d] *)
Definition mem (k : string) (d : dict) : bool :=
  match get k d with Some _ => true | None => false end.

(** [d[k] = v]: replaces in place, or appends a new key. *)
Fixpoint set (k : string) (v : V) (d : dict) : dict :=
  match d with
  | [] => [(k, v)]
  | (k', v') :: d' =>
      if String.eqb k k' then (k', v) :: d' else (k', v') :: set k v d'
  end.

(** Mutation of the object stored under [k]: [d[k].field = ...]. *)
Fixpoint update (k : string) (f : V -> V) (d : dict) : dict :=
  match d with
  | [] => []
  | (k', v) :: d' =>
      if String.eqb k k' then (k', f v) :: d' else (k', v) :: update k f d'
  end.

(** [d.values()] *)
Definition values (d : dict) : list V := map snd d.
End Dict.
Arguments dict V : clear implicits.

End Py.

Infix ">=?" := Py.ge (at level 70, no associativity) : Q_scope.
Infix ">?" := Py.gt (at level 70, no associativity) : Q_scope.
Infix "<?" := Py.lt (at level 70, no associativity) : Q_scope.

(** ** X32 fader curve (lines 24-42) *)

Definition fader_to_db (fader_val : Q) : Q :=
  if fader_val >=? 0.5 then
    fader_val * 40.0 - 30.0
  else if fader_val >=? 0.25 then
    fader_val * 80.0 - 50.0
  else if fader_val >? 0.0625 then
    fader_val * 160.0 - 70.0
  else
    -90.0.

Definition db_to_fader (db_val : Q) : Q :=
  if db_val >=? -10.0 then
    (db_val + 30.0) / 40.0
  else if db_val >=? -30.0 then
    (db_val + 50.0) / 80.0
  else if db_val >=? -60.0 then
    (db_val + 70.0) / 160.0
  else
    0.0.

(** The same two functions on binary64 floats. *)
Module Binary64.
Import PrimFloat.
#[local] Open Scope float_scope.

Definition fader_to_db (fader_val : float) : float :=
  if 0.5 <=? fader_val then
    fader_val * 40.0 - 30.0
  else if 0.25 <=? fader_val then
    fader_val * 80.0 - 50.0
  else if 0.0625 <? fader_val then
    fader_val * 160.0 - 70.0
  else
    -90.0.

Definition db_to_fader (db_val : float) : float :=
  if -10.0 <=? db_val then
    (db_val + 30.0) / 40.0
  else if -30.0 <=? db_val then
    (db_val + 50.0) / 80.0
  else if -60.0 <=? db_val then
    (db_val + 70.0) / 160.0
  else
    0.0.

(** [abs(a - b) <= 1e-9]; the literals below that are not binary64 values
    are rounded to the nearest one, as Python rounds them. *)
#[local] Set Warnings "-inexact-float".

Definition close (a b : float) : bool := abs (a - b) <=? 1e-9.

(** The four breakpoints above the floor, in both directions, and the
    conversion of -60. *)
Definition upper_breakpoints_agree : bool :=
  close (fader_to_db 0.25) (-30.0) && close (fader_to_db 0.5) (-10.0)
  && close (fader_to_db 0.75) 0.0 && close (fader_to_db 1.0) 10.0
  && close (db_to_fader (-60.0)) 0.0625 && close (db_to_fader (-30.0)) 0.25
  && close (db_to_fader (-10.0)) 0.5 && close (db_to_fader 0.0) 0.75
  && close (db_to_fader 10.0) 1.0.

Definition floor_breakpoint_is_minus_90 : bool :=
  fader_to_db 0.0625 =? -90.0.

Definition round_trip_at_minus_60 : bool :=
  close (fader_to_db (db_to_fader (-60.0))) (-60.0).

Definition ducked_value_is (fader_val : float) : bool :=
  close (db_to_fader (0.0 + -4.0)) fader_val.

Definition ducked_value_is_065 : bool := ducked_value_is 0.65.
Definition ducked_value_is_0575 : bool := ducked_value_is 0.575.

End Binary64.

(** ** Channel table (lines 44-56) *)

Record ChannelStrip := {
  id : string;
  name : string;
  group : string;
  priority : string;
  current_dbfs : Q;
  current_fader_level : Q;
  target_fader_level : Q;
  is_overridden : bool;
  override_end_time : Q
}.

(** The per-channel object of the configuration file; an absent key is
    [None] and takes the default of [config_data.get]. *)
Record ChannelConfig := {
  cfg_name : option string;
  cfg_group : option string;
  cfg_priority : option string
}.

Definition or_default {A : Type} (o : option A) (d : A) : A :=
  match o with Some a => a | None => d end.

(** [ChannelStrip.__init__] *)
Definition ChannelStrip_init (channel_id : string) (config_data : ChannelConfig)
  : ChannelStrip :=
  {| id := channel_id;
     name := or_default (cfg_name config_data) ("Ch " ++ channel_id)%string;
     group := or_default (cfg_group config_data) "ignore"%string;
     priority := or_default (cfg_priority config_data) "none"%string;
     current_dbfs := -90.0;
     current_fader_level := 0.0;
     target_fader_level := 0.75;
     is_overridden := false;
     override_end_time := 0 |}.

Definition set_current_dbfs (db_val : Q) (ch : ChannelStrip) : ChannelStrip :=
  {| id := id ch; name := name ch; group := group ch; priority := priority ch;
     current_dbfs := db_val;
     current_fader_level := current_fader_level ch;
     target_fader_level := target_fader_level ch;
     is_overridden := is_overridden ch;
     override_end_time := override_end_time ch |}.

Definition set_is_overridden (v : bool) (ch : ChannelStrip) : ChannelStrip :=
  {| id := id ch; name := name ch; group := group ch; priority := priority ch;
     current_dbfs := current_dbfs ch;
     current_fader_level := current_fader_level ch;
     target_fader_level := target_fader_level ch;
     is_overridden := v;
     override_end_time := override_end_time ch |}.

(** ** The brain (lines 58-197) *)

(** The state a decision cycle reads and writes: the channel table, the
    ducking gate, and the module-level [TARGET_BUS_IDX], which [load_config]
    reassigns. *)
Record BrainCore := {
  channels : Py.dict ChannelStrip;
  speech_active : bool;
  TARGET_BUS_IDX : list Z
}.

(** The parsed configuration file. *)
Record ConfigData := {
  cfg_channels : option (Py.dict ChannelConfig);
  cfg_target_bus : option (list Z)
}.

(** A message published on [x32/commands]. *)
Record Command := {
  address : string;
  args : list Q
}.

(** What a call leaves behind: the brain, the lines sent to the logger, the
    commands published, and whether it raised. *)
Record Result := {
  brain : BrainCore;
  logged : list string;
  published : list Command;
  raised : bool
}.

(** Module state before [BrainCore.__init__] runs. *)
Definition BrainCore_new : BrainCore :=
  {| channels := []; speech_active := false; TARGET_BUS_IDX := [11; 12]%Z |}.

(** [BrainCore.load_config]; [None] is a missing or unparseable file, which
    leaves the channel table empty. *)
Definition load_config (file : option ConfigData) (b : BrainCore) : BrainCore :=
  match file with
  | Some data =>
      {| channels :=
           fold_left
             (fun chs '(ch_id, ch_data) =>
                Py.set ch_id (ChannelStrip_init ch_id ch_data) chs)
             (or_default (cfg_channels data) [])
             (channels b);
         speech_active := speech_active b;
         TARGET_BUS_IDX := or_default (cfg_target_bus data) [11; 12]%Z |}
  | None => b
  end.

(** [BrainCore.__init__] *)
Definition BrainCore_init (file : option ConfigData) : BrainCore :=
  load_config file BrainCore_new.

(** *** [run_mixing_logic] (lines 126-197) *)

(** The [if]/[elif] chain on [ch.group] (lines 144-173): the target in dB,
    or [None] where the source executes [continue]. *)
Definition new_target_db (duck_amount : Q) (ch : ChannelStrip) : option Q :=
  if (group ch =? "drums")%string || (group ch =? "band")%string then
    Some (0.0 + duck_amount)
  else if (group ch =? "vocals")%string then
    let error := -18.0 - current_dbfs ch in
    if Qabs error <? 2.0 then None
    else Some 0.0
  else if (group ch =? "speech")%string then
    Some 0.0
  else
    None.

(** How one iteration of the [for] loop ends. *)
Inductive Flow :=
| Continue                (* [continue], or the end of a body that appended nothing *)
| Append (cmd : Command)  (* [commands.append(cmd)] *)
| ValueError.             (* [int(ch.id)] raised *)

(** The override check at the head of the loop body (lines 136-141): the
    channel after the check and the lines logged, or [None] for
    [continue]. *)
Definition check_override (now : Q) (ch : ChannelStrip)
  : option (ChannelStrip * list string) :=
  if is_overridden ch then
    if now >? override_end_time ch then
      Some (set_is_overridden false ch,
            [("Override ended for " ++ name ch)%string])
    else None
  else Some (ch, []).

(** The body of the loop over [self.channels.values()] (lines 136-192);
    [now] is the reading of [time.time()]. *)
Definition mix_channel (now duck_amount : Q) (ch : ChannelStrip)
  : ChannelStrip * list string * Flow :=
  match check_override now ch with
  | None => (ch, [], Continue)
  | Some (ch, lines) =>
      match new_target_db duck_amount ch with
      | None => (ch, lines, Continue)
      | Some target_db =>
          let fader_val := db_to_fader target_db in
          match Py.int (id ch) with
          | None => (ch, lines, ValueError)
          | Some n =>
              let ch_str := Py.format_02d n in
              let address := ("/ch/" ++ ch_str ++ "/mix/11/level")%string in
              (ch, lines, Append {| address := address; args := [fader_val] |})
          end
      end
  end.

(** The loop: the channel table after it, the lines logged, and the batch
    [commands], or [None] when an iteration raised (the channels mutated so
    far stay mutated, the batch is lost). *)
Fixpoint mix_loop (now duck_amount : Q) (chs : Py.dict ChannelStrip)
  (commands : list Command)
  : Py.dict ChannelStrip * list string * option (list Command) :=
  match chs with
  | [] => ([], [], Some commands)
  | (k, ch) :: rest =>
      let '(ch', lines, flow) := mix_channel now duck_amount ch in
      match flow with
      | ValueError => ((k, ch') :: rest, lines, None)
      | Continue =>
          let '(rest', lines', r) := mix_loop now duck_amount rest commands in
          ((k, ch') :: rest', lines ++ lines', r)
      | Append cmd =>
          let '(rest', lines', r) :=
            mix_loop now duck_amount rest (commands ++ [cmd]) in
          ((k, ch') :: rest', lines ++ lines', r)
      end
  end.

Definition duck_amount_of (b : BrainCore) : Q :=
  if speech_active b then -4.0 else 0.0.

Definition run_mixing_logic (now : Q) (b : BrainCore) : Result :=
  let duck_amount := duck_amount_of b in
  let '(chs, lines, batch) := mix_loop now duck_amount (channels b) [] in
  {| brain := {| channels := chs;
                 speech_active := speech_active b;
                 TARGET_BUS_IDX := TARGET_BUS_IDX b |};
     logged := lines;
     published := match batch with Some commands => commands | None => [] end;
     raised := match batch with Some _ => false | None => true end |}.

(** *** [process_telemetry] (lines 108-124) *)

(** The body of the loop over [levels.items()] (lines 113-118), on the
    channel table and [max_speech_db]. *)
Definition update_level (st : Py.dict ChannelStrip * Q) (item : string * Q)
  : Py.dict ChannelStrip * Q :=
  let '(chs, max_speech_db) := st in
  let '(ch_id, db_val) := item in
  match Py.get ch_id chs with
  | Some ch =>
      let chs := Py.update ch_id (set_current_dbfs db_val) chs in
      if (group ch =? "speech")%string && (db_val >? -35.0) then
        (chs, Py.max max_speech_db db_val)
      else (chs, max_speech_db)
  | None => (chs, max_speech_db)
  end.

Definition update_levels (levels : Py.dict Q) (chs : Py.dict ChannelStrip)
  : Py.dict ChannelStrip * Q :=
  fold_left update_level levels (chs, -90.0).

Definition process_telemetry (now : Q) (levels : Py.dict Q) (b : BrainCore)
  : Result :=
  let '(chs, max_speech_db) := update_levels levels (channels b) in
  run_mixing_logic now
    {| channels := chs;
       speech_active := max_speech_db >? -35.0;
       TARGET_BUS_IDX := TARGET_BUS_IDX b |}.

(** ** Vocabulary of the statements *)

(** Every channel id of the table is a string that [int] parses: no
    iteration of the decision pass can raise. *)
Definition ids_ok (chs : Py.dict ChannelStrip) : bool :=
  forallb (fun kc => match Py.int (id (snd kc)) with
                     | Some _ => true
                     | None => false
                     end) chs.

(** The commands and the log lines that a pass over the channels [chs]
    alone contributes. *)
Definition pass_commands (now duck_amount : Q) (chs : Py.dict ChannelStrip)
  : list Command :=
  match snd (mix_loop now duck_amount chs []) with
  | Some commands => commands
  | None => []
  end.

Definition pass_logged (now duck_amount : Q) (chs : Py.dict ChannelStrip)
  : list string :=
  snd (fst (mix_loop now duck_amount chs [])).

Definition pass_channels (now duck_amount : Q) (chs : Py.dict ChannelStrip)
  : Py.dict ChannelStrip :=
  fst (fst (mix_loop now duck_amount chs [])).

(** The command of channel number [n] for the send to bus 11. *)
Definition bus11_command (n : Z) (fader_val : Q) : Command :=
  {| address := ("/ch/" ++ Py.format_02d n ++ "/mix/11/level")%string;
     args := [fader_val] |}.

(** The specification's reading of the emission step: one command for each
    entry of [target_bus]. *)
Definition spec_commands_per_target_bus (target_bus : list Z) (n : Z)
  (fader_val : Q) : list Command :=
  map (fun bus =>
         {| address := ("/ch/" ++ Py.format_02d n ++ "/mix/" ++ Py.str bus
                          ++ "/level")%string;
            args := [fader_val] |})
      target_bus.

(** What one iteration appends to the batch. *)
Definition emitted (now duck_amount : Q) (ch : ChannelStrip) : list Command :=
  match snd (mix_channel now duck_amount ch) with
  | Append cmd => [cmd]
  | _ => []
  end.

(** What a decision pass may do to a channel object: nothing, or clear an
    override whose end time has passed. *)
Definition only_override_cleared (now : Q) (ch ch' : ChannelStrip) : Prop :=
  ch' = ch
  \/ (is_overridden ch = true /\ override_end_time ch < now
      /\ ch' = set_is_overridden false ch).

(** A command with a single argument, in the normalized fader range. *)
Definition normalized (cmd : Command) : Prop :=
  exists v, args cmd = [v] /\ 0.0 <= v <= 1.0.

(** A reading that opens the ducking gate: its id is a key of the table,
    the channel stored there is a speech channel, and the reading is
    strictly above -35.0 dB. *)
Definition opens_gate (chs : Py.dict ChannelStrip) (item : string * Q) : bool :=
  match Py.get (fst item) chs with
  | Some ch => (group ch =? "speech")%string && (snd item >? -35.0)
  | None => false
  end.

(** The readings of a message whose id is a key of the table. *)
Definition known_levels (chs : Py.dict ChannelStrip) (levels : Py.dict Q)
  : Py.dict Q :=
  filter (fun item => Py.mem (fst item) chs) levels.

(** Two channel tables with the same keys and, under each key, channels of
    the same group. *)
Definition same_groups (chs0 chs : Py.dict ChannelStrip) : Prop :=
  forall k, option_map group (Py.get k chs) = option_map group (Py.get k chs0).

(** ** Sample inputs

    The scenario of the specification, with the default target buses:
    channel "1" is speech, channel "2" is drums. *)

Definition group_only (g : string) : ChannelConfig :=
  {| cfg_name := None; cfg_group := Some g; cfg_priority := None |}.

Definition scenario_config : ConfigData :=
  {| cfg_channels :=
       Some [("1"%string, group_only "speech"); ("2"%string, group_only "drums")];
     cfg_target_bus := None |}.

Definition scenario_brain : BrainCore := BrainCore_init (Some scenario_config).

Definition scenario_levels : Py.dict Q :=
  [("1"%string, -20.0); ("2"%string, -40.0)].

Definition speech_1 : ChannelStrip := ChannelStrip_init "1" (group_only "speech").
Definition drums_2 : ChannelStrip := ChannelStrip_init "2" (group_only "drums").

(** A vocal channel "3" with a given reading. *)
Definition vocals_3 (dbfs : Q) : ChannelStrip :=
  set_current_dbfs dbfs (ChannelStrip_init "3" (group_only "vocals")).

(** Channel "2" under a manual override that ends at [end_time]. *)
Definition overridden_2 (end_time : Q) : ChannelStrip :=
  {| id := "2"; name := "Ch 2"; group := "drums"; priority := "none";
     current_dbfs := -90.0; current_fader_level := 0.0;
     target_fader_level := 0.75;
     is_overridden := true; override_end_time := end_time |}.

(** A brain over a given channel table, with the default target buses. *)
Definition brain_of (chs : Py.dict ChannelStrip) (gate : bool) : BrainCore :=
  {| channels := chs; speech_active := gate; TARGET_BUS_IDX := [11; 12]%Z |}.

(** A message with an id that is not in the scenario's table. *)
Definition levels_with_unknown : Py.dict Q :=
  [("1"%string, -20.0); ("99"%string, -3.0); ("2"%string, -40.0)].

(** ** The edge node ([src/edge_node.py]) *)

Module Edge.

Definition TELEMETRY_INTERVAL : Q := 0.2.

(** [enumerate(l)] *)
Definition enumerate {A : Type} (l : list A) : list (nat * A) :=
  combine (seq 0 (List.length l)) l.

(** The dict comprehension of line 109:
    [{str(i+1): lvl for i, lvl in enumerate(self.levels)}]. *)
Definition telemetry_data (levels : list Q) : Py.dict Q :=
  fold_left (fun d '(i, lvl) => Py.set (Py.str (Z.of_nat i + 1)) lvl d)
    (enumerate levels) [].

(** What one wake-up of [telemetry_loop] finds: the clock, the snapshot
    [self.levels] the audio callback left, and whether [publish] raises
    (with the text of the exception). *)
Record Tick := {
  current_time : Q;
  levels : list Q;
  publish_error : option string
}.

(** One iteration of the [while] loop of [telemetry_loop] (lines 106-115),
    on [self.last_telemetry_time]: the new value, the message handed to the
    bus, and the lines logged. *)
Definition telemetry_step (tick : Tick) (last_telemetry_time : Q)
  : Q * option (Py.dict Q) * list string :=
  if current_time tick - last_telemetry_time >=? TELEMETRY_INTERVAL then
    let data := telemetry_data (levels tick) in
    match publish_error tick with
    | None => (current_time tick, Some data, [])
    | Some e =>
        (last_telemetry_time, None,
         [("Failed to publish telemetry: " ++ e)%string])
    end
  else (last_telemetry_time, None, []).

(** The loop over a finite run of wake-ups: the messages that reached the
    bus, each with the time it was published at. *)
Fixpoint telemetry_loop (ticks : list Tick) (last_telemetry_time : Q)
  : list (Q * Py.dict Q) :=
  match ticks with
  | [] => []
  | tick :: rest =>
      let '(last, message, _) := telemetry_step tick last_telemetry_time in
      match message with
      | Some data => (current_time tick, data) :: telemetry_loop rest last
      | None => telemetry_loop rest last
      end
  end.

(** A decoded message of [x32/commands]: a JSON object whose keys may be
    absent. *)
Record Payload := {
  payload_address : option string;
  payload_args : option (list Q)
}.

(** [on_mqtt_message] (lines 60-70), on the decoded payload ([None] when
    decoding raised): the calls [osc_client.send_message(address, args)] it
    makes.  A string is true when it is not empty. *)
Definition on_mqtt_message (payload : option Payload)
  : list (string * option (list Q)) :=
  match payload with
  | Some p =>
      match payload_address p with
      | Some address =>
          if (address =? "")%string then [] else [(address, payload_args p)]
      | None => []
      end
  | None => []
  end.

End Edge.

(** A command as it arrives at the edge: [json.dumps] on the brain, the bus,
    [json.loads] on the edge. *)
Definition on_the_wire (cmd : Command) : option Edge.Payload :=
  Some {| Edge.payload_address := Some (address cmd);
          Edge.payload_args := Some (args cmd) |}.

(** ** Vocabulary of the further statements *)

(** Two channel objects that differ at most in [current_dbfs] and
    [is_overridden]. *)
Definition same_settings (ch ch' : ChannelStrip) : Prop :=
  id ch' = id ch /\ name ch' = name ch /\ group ch' = group ch
  /\ priority ch' = priority ch
  /\ current_fader_level ch' = current_fader_level ch
  /\ target_fader_level ch' = target_fader_level ch
  /\ override_end_time ch' = override_end_time ch.

(** Same key, same settings, the level free, the override flag equal. *)
Definition level_changed (kc kc' : string * ChannelStrip) : Prop :=
  fst kc' = fst kc /\ same_settings (snd kc) (snd kc')
  /\ is_overridden (snd kc') = is_overridden (snd kc).

(** The table part of the loop over [levels.items()]: each reading stored
    in the channel of its id. *)
Definition store_levels (levels : Py.dict Q) (chs : Py.dict ChannelStrip)
  : Py.dict ChannelStrip :=
  fold_left
    (fun chs item => Py.update (fst item) (set_current_dbfs (snd item)) chs)
    levels chs.

(** The entry of the telemetry message for the meter channel of index
    [fst e]. *)
Definition telemetry_entry (e : nat * Q) : string * Q :=
  (Py.str (Z.of_nat (fst e) + 1), snd e).

(** The groups that have a policy. *)
Definition has_policy (g : string) : bool :=
  (g =? "drums")%string || (g =? "band")%string
  || (g =? "vocals")%string || (g =? "speech")%string.

(** Publish times that are each at least [TELEMETRY_INTERVAL] after the
    one before, starting from [last]. *)
Fixpoint spaced (last : Q) (times : list Q) : Prop :=
  match times with
  | [] => True
  | t :: rest => Edge.TELEMETRY_INTERVAL <= t - last /\ spaced t rest
  end.

(** A configuration with the music channels "7" and "8" and its own target
    buses. *)
Definition two_drums : ConfigData :=
  {| cfg_channels :=
       Some [("7"%string, group_only "drums"); ("8"%string, group_only "band")];
     cfg_target_bus := Some [5; 6]%Z |}.

(** * Properties *)

(** ** Comparisons *)

Lemma ge_true a b : (a >=? b) = true <-> b <= a.
Proof. unfold Py.ge. apply Qle_bool_iff. Qed.

Lemma ge_false a b : (a >=? b) = false <-> a < b.
Proof.
  unfold Py.ge. rewrite <- not_true_iff_false, Qle_bool_iff.
  split; [apply Qnot_le_lt | apply Qlt_not_le].
Qed.

Lemma gt_true a b : (a >? b) = true <-> b < a.
Proof.
  unfold Py.gt. rewrite negb_true_iff, <- not_true_iff_false, Qle_bool_iff.
  split; [apply Qnot_le_lt | apply Qlt_not_le].
Qed.

Lemma gt_false a b : (a >? b) = false <-> a <= b.
Proof. unfold Py.gt. rewrite negb_false_iff. apply Qle_bool_iff. Qed.

Lemma lt_true a b : (a <? b) = true <-> a < b.
Proof. unfold Py.lt. apply (gt_true b a). Qed.

Lemma lt_false a b : (a <? b) = false <-> b <= a.
Proof. unfold Py.lt. apply (gt_false b a). Qed.

(** Turns the boolean tests of the hypotheses into order facts. *)
Ltac order_facts :=
  repeat match goal with
    | H : (_ >=? _) = true |- _ => apply ge_true in H
    | H : (_ >=? _) = false |- _ => apply ge_false in H
    | H : (_ >? _) = true |- _ => apply gt_true in H
    | H : (_ >? _) = false |- _ => apply gt_false in H
    | H : (_ <? _) = true |- _ => apply lt_true in H
    | H : (_ <? _) = false |- _ => apply lt_false in H
    end.

(** Linear arithmetic over the literals of the source, divisions by a
    constant included. *)
Ltac q_arith := unfold Qdiv in *; cbn [Qinv Qnum Qden] in *; lra.

(** ** The loop of the decision pass *)

Section Pass.
Variables now duck_amount : Q.

Lemma check_override_fields ch ch' lines :
  check_override now ch = Some (ch', lines) ->
  id ch' = id ch /\ name ch' = name ch /\ group ch' = group ch
  /\ current_dbfs ch' = current_dbfs ch
  /\ target_fader_level ch' = target_fader_level ch
  /\ override_end_time ch' = override_end_time ch
  /\ is_overridden ch' = false.
Proof.
  unfold check_override.
  destruct (is_overridden ch) eqn:Ho.
  - destruct (now >? override_end_time ch); intros [= <- <-]; cbn; auto 10.
  - intros [= <- <-]; auto 10.
Qed.

Lemma new_target_db_ext ch ch' :
  group ch' = group ch -> current_dbfs ch' = current_dbfs ch ->
  new_target_db duck_amount ch' = new_target_db duck_amount ch.
Proof. unfold new_target_db. intros -> ->. reflexivity. Qed.

(** A channel that passes the override check and has a target appends
    its command for bus 11. *)
Lemma mix_channel_append ch ch' lines target_db n :
  check_override now ch = Some (ch', lines) ->
  new_target_db duck_amount ch = Some target_db ->
  Py.int (id ch) = Some n ->
  mix_channel now duck_amount ch
  = (ch', lines, Append (bus11_command n (db_to_fader target_db))).
Proof.
  intros Hc Ht Hn. unfold mix_channel. rewrite Hc.
  destruct (check_override_fields _ _ _ Hc) as (Hi & _ & Hg & Hd & _).
  rewrite (new_target_db_ext ch ch' Hg Hd), Ht, Hi, Hn. reflexivity.
Qed.

(** A channel that passes the override check and has no target appends
    nothing. *)
Lemma mix_channel_no_target ch ch' lines :
  check_override now ch = Some (ch', lines) ->
  new_target_db duck_amount ch = None ->
  mix_channel now duck_amount ch = (ch', lines, Continue).
Proof.
  intros Hc Ht. unfold mix_channel. rewrite Hc.
  destruct (check_override_fields _ _ _ Hc) as (_ & _ & Hg & Hd & _).
  rewrite (new_target_db_ext ch ch' Hg Hd), Ht. reflexivity.
Qed.

Lemma mix_channel_skip ch :
  check_override now ch = None ->
  mix_channel now duck_amount ch = (ch, [], Continue).
Proof. intros Hc. unfold mix_channel. rewrite Hc. reflexivity. Qed.

Lemma mix_channel_no_raise ch n :
  Py.int (id ch) = Some n ->
  snd (mix_channel now duck_amount ch) <> ValueError.
Proof.
  intros Hn. unfold mix_channel.
  destruct (check_override now ch) as [[ch' lines]|] eqn:Hc; [|discriminate].
  destruct (check_override_fields _ _ _ Hc) as (Hi & _).
  destruct (new_target_db duck_amount ch'); [|discriminate].
  rewrite Hi, Hn. discriminate.
Qed.

(** With ids that parse, the loop is a map over the channels, and the
    batch is the concatenation of what each iteration appends. *)
Lemma mix_loop_ok chs commands :
  ids_ok chs = true ->
  mix_loop now duck_amount chs commands
  = (map (fun kc => (fst kc, fst (fst (mix_channel now duck_amount (snd kc))))) chs,
     flat_map (fun kc => snd (fst (mix_channel now duck_amount (snd kc)))) chs,
     Some (commands ++ flat_map (fun kc => emitted now duck_amount (snd kc)) chs)%list).
Proof.
  revert commands.
  induction chs as [|[k ch] rest IH]; intros commands Hok; cbn [mix_loop].
  - cbn. now rewrite app_nil_r.
  - cbn [ids_ok forallb snd] in Hok. apply andb_true_iff in Hok as [Hn Hrest].
    destruct (Py.int (id ch)) as [n|] eqn:En; [clear Hn | discriminate].
    pose proof (mix_channel_no_raise ch n En) as Hflow.
    cbn [map flat_map fst snd]. unfold emitted at 1.
    destruct (mix_channel now duck_amount ch) as [[ch' lines] flow].
    cbn [fst snd] in *.
    destruct flow as [|cmd|]; [| |contradiction].
    + rewrite (IH commands Hrest). reflexivity.
    + rewrite (IH (commands ++ [cmd])%list Hrest), <- app_assoc. reflexivity.
Qed.

Lemma ids_ok_app pre post :
  ids_ok (pre ++ post) = true <-> ids_ok pre = true /\ ids_ok post = true.
Proof. unfold ids_ok. rewrite forallb_app. apply andb_true_iff. Qed.

Lemma ids_ok_cons k ch post :
  ids_ok ((k, ch) :: post) = true
  <-> (exists n, Py.int (id ch) = Some n) /\ ids_ok post = true.
Proof.
  cbn [ids_ok forallb snd]. rewrite andb_true_iff.
  destruct (Py.int (id ch)) as [n|]; split; intros [H1 H2]; split; eauto;
    try discriminate.
  destruct H1 as [? [=]].
Qed.

(** The pass over [pre ++ (k, ch) :: post] splits into the pass over
    [pre], the iteration on [ch] and the pass over [post]. *)
Lemma pass_split pre k ch post :
  ids_ok (pre ++ (k, ch) :: post) = true ->
  pass_commands now duck_amount (pre ++ (k, ch) :: post)
  = (pass_commands now duck_amount pre ++ emitted now duck_amount ch
       ++ pass_commands now duck_amount post)%list
  /\ pass_logged now duck_amount (pre ++ (k, ch) :: post)
     = (pass_logged now duck_amount pre
          ++ snd (fst (mix_channel now duck_amount ch))
          ++ pass_logged now duck_amount post)%list
  /\ pass_channels now duck_amount (pre ++ (k, ch) :: post)
     = (pass_channels now duck_amount pre
          ++ (k, fst (fst (mix_channel now duck_amount ch)))
          :: pass_channels now duck_amount post)%list.
Proof.
  intros Hok. pose proof Hok as Hall.
  apply ids_ok_app in Hok as [Hpre Hpost].
  pose proof Hpost as Hcons. apply ids_ok_cons in Hpost as [_ Hpost].
  unfold pass_commands, pass_logged, pass_channels.
  rewrite (mix_loop_ok _ [] Hall), (mix_loop_ok _ [] Hpre),
    (mix_loop_ok _ [] Hpost).
  cbn [fst snd app].
  rewrite !flat_map_app, map_app. cbn [flat_map map fst snd].
  repeat split; reflexivity.
Qed.
End Pass.

(** The outputs of [run_mixing_logic] are those of the pass over the whole
    table. *)
Lemma run_mixing_logic_pass now b :
  published (run_mixing_logic now b)
  = pass_commands now (duck_amount_of b) (channels b)
  /\ logged (run_mixing_logic now b)
     = pass_logged now (duck_amount_of b) (channels b)
  /\ channels (brain (run_mixing_logic now b))
     = pass_channels now (duck_amount_of b) (channels b).
Proof.
  unfold run_mixing_logic, pass_commands, pass_logged, pass_channels.
  destruct (mix_loop now (duck_amount_of b) (channels b) []) as [[chs lines] batch].
  cbn. auto.
Qed.

(** ** The fader curve *)

(** Case analysis on the next [if] of the goal, keeping the test. *)
Ltac split_if :=
  match goal with
  | |- context [if ?c then _ else _] =>
      let E := fresh "E" in destruct c eqn:E
  end.

Ltac curve := repeat split_if; order_facts; try q_arith.

(** C10.  In exact rational arithmetic [fader_to_db] undoes [db_to_fader]
    for every db value strictly above -60, with no upper limit; for every db
    value at or below -60 the round trip gives the silence floor -90.0. *)
Theorem curve_round_trip_above_floor (db : Q) :
  (-60.0 < db -> fader_to_db (db_to_fader db) == db)
  /\ (db <= -60.0 -> fader_to_db (db_to_fader db) == -90.0).
Proof.
  split; intros H; unfold db_to_fader; repeat split_if;
    unfold fader_to_db; curve.
Qed.

Lemma curve_round_trip_above_floor_witness :
  fader_to_db (db_to_fader (-4.0)) == -4.0
  /\ fader_to_db (db_to_fader (-60.0)) == -90.0.
Proof.
  split.
  - apply (proj1 (curve_round_trip_above_floor (-4.0))). reflexivity.
  - apply (proj2 (curve_round_trip_above_floor (-60.0))). discriminate.
Defined.

(** C3.  The curve at the five breakpoints.  [db_to_fader] sends each db
    value to its fader value, and [fader_to_db] sends 0.25, 0.5, 0.75 and
    1.0 to their db values; at the lowest breakpoint [fader_to_db 0.0625] is
    the silence floor -90.0 and not -60, because the test of the third
    segment is the strict [fader_val > 0.0625], so the two directions
    disagree there and a round trip from -60 ends at -90.0. *)
Theorem curve_at_breakpoints :
  (db_to_fader (-60.0) == 0.0625 /\ db_to_fader (-30.0) == 0.25
   /\ db_to_fader (-10.0) == 0.5 /\ db_to_fader 0.0 == 0.75
   /\ db_to_fader 10.0 == 1.0)
  /\ (fader_to_db 0.25 == -30.0 /\ fader_to_db 0.5 == -10.0
      /\ fader_to_db 0.75 == 0.0 /\ fader_to_db 1.0 == 10.0)
  /\ fader_to_db 0.0625 == -90.0
  /\ ~ fader_to_db 0.0625 == -60.0
  /\ ~ fader_to_db (db_to_fader (-60.0)) == -60.0.
Proof.
  repeat split; try reflexivity; intros H; vm_compute in H; discriminate.
Qed.

(** In binary64 arithmetic the curve takes the same values at the points
    cited above and in the statements on ducking: the four upper breakpoints
    agree in both directions within 1e-9, [fader_to_db 0.0625] is -90.0, and
    [db_to_fader (0.0 + -4.0)] is within 1e-9 of 0.65 and not of 0.575. *)
Lemma binary64_cited_points :
  Binary64.upper_breakpoints_agree = true
  /\ Binary64.floor_breakpoint_is_minus_90 = true
  /\ Binary64.round_trip_at_minus_60 = false
  /\ Binary64.ducked_value_is_065 = true
  /\ Binary64.ducked_value_is_0575 = false.
Proof. repeat split; vm_compute; reflexivity. Qed.

(** ** Emission *)

(** The decomposition that the statements below share: the channel at
    [pre ++ (k, ch) :: post] contributes exactly what its iteration
    appends. *)
Lemma published_split now b pre k ch post :
  channels b = (pre ++ (k, ch) :: post)%list ->
  ids_ok (channels b) = true ->
  published (run_mixing_logic now b)
  = (pass_commands now (duck_amount_of b) pre
       ++ emitted now (duck_amount_of b) ch
       ++ pass_commands now (duck_amount_of b) post)%list.
Proof.
  intros Hch Hok.
  destruct (run_mixing_logic_pass now b) as (-> & _).
  rewrite Hch in *. now apply pass_split.
Qed.

Lemma not_overridden_check now ch :
  is_overridden ch = false -> check_override now ch = Some (ch, []).
Proof. unfold check_override. now intros ->. Qed.

Lemma expired_check now ch :
  is_overridden ch = true -> override_end_time ch < now ->
  check_override now ch
  = Some (set_is_overridden false ch,
          [("Override ended for " ++ name ch)%string]).
Proof.
  unfold check_override. intros -> H. apply gt_true in H. now rewrite H.
Qed.

Lemma unexpired_check now ch :
  is_overridden ch = true -> now <= override_end_time ch ->
  check_override now ch = None.
Proof.
  unfold check_override. intros -> H. apply gt_false in H. now rewrite H.
Qed.

Lemma emitted_append now duck_amount ch ch' lines target_db n :
  check_override now ch = Some (ch', lines) ->
  new_target_db duck_amount ch = Some target_db ->
  Py.int (id ch) = Some n ->
  emitted now duck_amount ch = [bus11_command n (db_to_fader target_db)].
Proof.
  intros Hc Ht Hn. unfold emitted.
  now rewrite (mix_channel_append now duck_amount ch ch' lines target_db n).
Qed.

Lemma ids_ok_at pre k ch post :
  ids_ok (pre ++ (k, ch) :: post) = true -> exists n, Py.int (id ch) = Some n.
Proof.
  intros H. apply ids_ok_app in H as [_ H]. now apply ids_ok_cons in H as [H _].
Qed.

(** A channel that passes the override check and has a target contributes
    its single command for bus 11. *)
Lemma published_with_target now b pre k ch post ch' lines target_db :
  channels b = (pre ++ (k, ch) :: post)%list ->
  ids_ok (channels b) = true ->
  check_override now ch = Some (ch', lines) ->
  new_target_db (duck_amount_of b) ch = Some target_db ->
  exists n,
    Py.int (id ch) = Some n
    /\ published (run_mixing_logic now b)
       = (pass_commands now (duck_amount_of b) pre
            ++ [bus11_command n (db_to_fader target_db)]
            ++ pass_commands now (duck_amount_of b) post)%list.
Proof.
  intros Hch Hok Hc Ht.
  pose proof Hok as Hn. rewrite Hch in Hn. apply ids_ok_at in Hn as [n Hn].
  exists n. split; [exact Hn|].
  rewrite (published_split now b pre k ch post Hch Hok).
  now rewrite (emitted_append _ _ _ _ _ _ _ Hc Ht Hn).
Qed.

(** The pass does not read [TARGET_BUS_IDX]. *)
Lemma target_buses_not_read now b buses :
  published (run_mixing_logic now
               {| channels := channels b; speech_active := speech_active b;
                  TARGET_BUS_IDX := buses |})
  = published (run_mixing_logic now b).
Proof.
  unfold run_mixing_logic, duck_amount_of. cbn [channels speech_active].
  now destruct (mix_loop now (if speech_active b then -4.0 else 0.0)
                  (channels b) []) as [[chs lines] r].
Qed.

(** C1 (as amended).  Take a brain whose first target bus is 11, as with
    the default [11; 12].  In every decision pass, a channel that is not held
    by an override (never overridden, or its override has expired) and to
    which the group policy gives a target contributes exactly one command: it
    is addressed [/ch/{2-digit-id}/mix/11/level], for that first bus only, and
    its args are the single converted fader value. *)
Theorem one_command_per_channel_on_bus_11
  now b pre k ch post target_db :
  hd_error (TARGET_BUS_IDX b) = Some 11%Z ->
  channels b = (pre ++ (k, ch) :: post)%list ->
  ids_ok (channels b) = true ->
  is_overridden ch = false \/ override_end_time ch < now ->
  new_target_db (duck_amount_of b) ch = Some target_db ->
  exists n,
    Py.int (id ch) = Some n
    /\ published (run_mixing_logic now b)
       = (pass_commands now (duck_amount_of b) pre
            ++ [ {| address := ("/ch/" ++ Py.format_02d n ++ "/mix/11/level")%string;
                    args := [db_to_fader target_db] |} ]
            ++ pass_commands now (duck_amount_of b) post)%list.
Proof.
  intros _ Hch Hok Hov Ht.
  destruct (is_overridden ch) eqn:Ho.
  - destruct Hov as [Hov|Hov]; [discriminate|].
    exact (published_with_target now b pre k ch post _ _ target_db
             Hch Hok (expired_check now ch Ho Hov) Ht).
  - exact (published_with_target now b pre k ch post _ _ target_db
             Hch Hok (not_overridden_check now ch Ho) Ht).
Qed.

Lemma one_command_per_channel_on_bus_11_witness :
  exists n,
    Py.int (id drums_2) = Some n
    /\ published (run_mixing_logic 100 (brain_of [("1"%string, speech_1); ("2"%string, drums_2)] true))
       = (pass_commands 100 (-4.0) [("1"%string, speech_1)]
            ++ [ {| address := ("/ch/" ++ Py.format_02d n ++ "/mix/11/level")%string;
                    args := [db_to_fader (0.0 + -4.0)] |} ]
            ++ pass_commands 100 (-4.0) [])%list.
Proof.
  apply (one_command_per_channel_on_bus_11 100
           (brain_of [("1"%string, speech_1); ("2"%string, drums_2)] true)
           [("1"%string, speech_1)] "2"%string drums_2 [] (0.0 + -4.0)).
  - reflexivity.
  - reflexivity.
  - reflexivity.
  - left. reflexivity.
  - reflexivity.
Defined.

(** C1 (as stated) fails.  With the default target buses [11; 12] the
    scenario's cycle publishes one command for each of its two channels, both
    for bus 11: the batch is not the one with a command per target bus, and
    no command addresses bus 12. *)
Lemma no_command_per_target_bus :
  let r := process_telemetry 100 scenario_levels scenario_brain in
  TARGET_BUS_IDX scenario_brain = [11; 12]%Z
  /\ published r
     = [ {| address := "/ch/01/mix/11/level"; args := [db_to_fader 0.0] |};
         {| address := "/ch/02/mix/11/level"; args := [db_to_fader (0.0 + -4.0)] |} ]
  /\ published r
     <> (spec_commands_per_target_bus (TARGET_BUS_IDX scenario_brain) 1
           (db_to_fader 0.0)
         ++ spec_commands_per_target_bus (TARGET_BUS_IDX scenario_brain) 2
              (db_to_fader (0.0 + -4.0)))%list
  /\ ~ In "/ch/02/mix/12/level"%string (map address (published r)).
Proof.
  cbv zeta. repeat split.
  - vm_compute. discriminate.
  - vm_compute. intros [H|[H|[]]]; discriminate.
Qed.

(** C2 (as amended).  In a decision pass with the ducking gate active, a
    non-overridden channel of group drums or band gets the target
    0.0 + (-4.0) = -4.0 dB, and the command it contributes carries
    [db_to_fader (-4.0)], which lies on the upper segment of the curve:
    (-4 + 30) / 40 = 0.65. *)
Theorem ducking_application now b pre k ch post :
  channels b = (pre ++ (k, ch) :: post)%list ->
  ids_ok (channels b) = true ->
  speech_active b = true ->
  is_overridden ch = false ->
  group ch = "drums"%string \/ group ch = "band"%string ->
  exists target_db fader_val n,
    new_target_db (duck_amount_of b) ch = Some target_db
    /\ target_db = 0.0 + -4.0 /\ target_db == -4.0
    /\ fader_val = db_to_fader target_db
    /\ fader_val == (-4.0 + 30.0) / 40.0 /\ fader_val == 0.65
    /\ Py.int (id ch) = Some n
    /\ published (run_mixing_logic now b)
       = (pass_commands now (duck_amount_of b) pre
            ++ [ {| address := ("/ch/" ++ Py.format_02d n ++ "/mix/11/level")%string;
                    args := [fader_val] |} ]
            ++ pass_commands now (duck_amount_of b) post)%list.
Proof.
  intros Hch Hok Hgate Ho Hg.
  assert (Ht : new_target_db (duck_amount_of b) ch = Some (0.0 + -4.0)).
  { unfold new_target_db, duck_amount_of. rewrite Hgate.
    destruct Hg as [-> | ->]; reflexivity. }
  destruct (published_with_target now b pre k ch post _ _ (0.0 + -4.0)
              Hch Hok (not_overridden_check now ch Ho) Ht) as (n & Hn & Hp).
  exists (0.0 + -4.0), (db_to_fader (0.0 + -4.0)), n.
  split; [exact Ht|]. split; [reflexivity|]. split; [reflexivity|].
  split; [reflexivity|]. split; [vm_compute; reflexivity|].
  split; [vm_compute; reflexivity|]. split; [exact Hn | exact Hp].
Qed.

Lemma ducking_application_witness :
  exists target_db fader_val n,
    new_target_db (-4.0) drums_2 = Some target_db
    /\ target_db = 0.0 + -4.0 /\ target_db == -4.0
    /\ fader_val = db_to_fader target_db
    /\ fader_val == (-4.0 + 30.0) / 40.0 /\ fader_val == 0.65
    /\ Py.int (id drums_2) = Some n
    /\ published (run_mixing_logic 100 (brain_of [("1"%string, speech_1); ("2"%string, drums_2)] true))
       = (pass_commands 100 (-4.0) [("1"%string, speech_1)]
            ++ [ {| address := ("/ch/" ++ Py.format_02d n ++ "/mix/11/level")%string;
                    args := [fader_val] |} ]
            ++ pass_commands 100 (-4.0) [])%list.
Proof.
  apply (ducking_application 100
           (brain_of [("1"%string, speech_1); ("2"%string, drums_2)] true)
           [("1"%string, speech_1)] "2"%string drums_2 []).
  - reflexivity.
  - reflexivity.
  - reflexivity.
  - reflexivity.
  - left. reflexivity.
Defined.

(** C2 (as stated) fails.  In the scenario the gate is active and the drums
    channel "2" is sent [db_to_fader (0.0 + -4.0)], which is 0.65 and not
    0.575: -4.0 is above -10.0, so the conversion takes the segment
    (db + 30) / 40 and not (db + 50) / 80. *)
Lemma ducked_fader_is_not_0575 :
  let r := process_telemetry 100 scenario_levels scenario_brain in
  speech_active (brain r) = true
  /\ published r
     = [ {| address := "/ch/01/mix/11/level"; args := [db_to_fader 0.0] |};
         {| address := "/ch/02/mix/11/level"; args := [db_to_fader (0.0 + -4.0)] |} ]
  /\ db_to_fader (0.0 + -4.0) == 0.65
  /\ ~ db_to_fader (0.0 + -4.0) == 0.575
  /\ ~ db_to_fader (-4.0) == (-4.0 + 50.0) / 80.0.
Proof.
  cbv zeta. repeat split; intros H; vm_compute in H; discriminate.
Qed.

(** ** What a pass does to the channel objects *)

Lemma mix_channel_only_override_cleared now duck_amount ch :
  only_override_cleared now ch (fst (fst (mix_channel now duck_amount ch))).
Proof.
  assert (Hc : match check_override now ch with
               | Some (ch', _) => only_override_cleared now ch ch'
               | None => True
               end).
  { unfold check_override, only_override_cleared.
    destruct (is_overridden ch); [|now left].
    destruct (now >? override_end_time ch) eqn:E; [|exact I].
    apply gt_true in E. right. auto. }
  unfold mix_channel.
  destruct (check_override now ch) as [[ch' lines]|]; [|now left].
  destruct (new_target_db duck_amount ch'); [|exact Hc].
  destruct (Py.int (id ch')); exact Hc.
Qed.

(** Raising or not, the loop keeps the keys and their order, and changes a
    channel object only by clearing an expired override. *)
Lemma mix_loop_channels now duck_amount chs commands :
  Forall2 (fun kc kc' => fst kc' = fst kc
                         /\ only_override_cleared now (snd kc) (snd kc'))
    chs (fst (fst (mix_loop now duck_amount chs commands))).
Proof.
  revert commands.
  induction chs as [|[k ch] rest IH]; intros commands; cbn [mix_loop].
  - constructor.
  - pose proof (mix_channel_only_override_cleared now duck_amount ch) as Hch.
    destruct (mix_channel now duck_amount ch) as [[ch' lines] flow].
    cbn [fst snd] in Hch.
    destruct flow as [|cmd|].
    + specialize (IH commands).
      destruct (mix_loop now duck_amount rest commands) as [[rest' lines'] r].
      constructor; auto.
    + specialize (IH (commands ++ [cmd])%list).
      destruct (mix_loop now duck_amount rest (commands ++ [cmd])%list)
        as [[rest' lines'] r].
      constructor; auto.
    + constructor; auto.
      clear. induction rest as [|[k' c'] rest IH]; constructor; auto.
      split; [reflexivity | now left].
Qed.

Lemma run_mixing_logic_channels now b :
  Forall2 (fun kc kc' => fst kc' = fst kc
                         /\ only_override_cleared now (snd kc) (snd kc'))
    (channels b) (channels (brain (run_mixing_logic now b))).
Proof.
  pose proof (mix_loop_channels now (duck_amount_of b) (channels b) []) as H.
  unfold run_mixing_logic.
  destruct (mix_loop now (duck_amount_of b) (channels b) []) as [[chs lines] r].
  exact H.
Qed.

(** The three outputs of a pass, split at one channel. *)
Lemma run_split now b pre k ch post :
  channels b = (pre ++ (k, ch) :: post)%list ->
  ids_ok (channels b) = true ->
  let d := duck_amount_of b in
  let r := run_mixing_logic now b in
  published r
  = (pass_commands now d pre ++ emitted now d ch ++ pass_commands now d post)%list
  /\ logged r
     = (pass_logged now d pre ++ snd (fst (mix_channel now d ch))
          ++ pass_logged now d post)%list
  /\ channels (brain r)
     = (pass_channels now d pre ++ (k, fst (fst (mix_channel now d ch)))
          :: pass_channels now d post)%list.
Proof.
  intros Hch Hok d r. subst d r.
  destruct (run_mixing_logic_pass now b) as (-> & -> & ->).
  rewrite Hch in *. now apply pass_split.
Qed.

(** ** Vocals *)

Lemma new_target_db_vocals duck_amount ch :
  group ch = "vocals"%string ->
  new_target_db duck_amount ch
  = if Qabs (-18.0 - current_dbfs ch) <? 2.0 then None else Some 0.0.
Proof. unfold new_target_db. intros ->. reflexivity. Qed.

(** C5.  For a non-overridden channel of group vocals the pass computes
    error = -18.0 - current_dbfs.  If |error| < 2.0 the channel has no target
    and contributes no command; otherwise its target is the fixed 0.0 dB,
    whatever the error, and it contributes the command for
    [db_to_fader 0.0]. *)
Theorem vocal_deadband now b pre k ch post :
  channels b = (pre ++ (k, ch) :: post)%list ->
  ids_ok (channels b) = true ->
  is_overridden ch = false ->
  group ch = "vocals"%string ->
  let d := duck_amount_of b in
  let error := -18.0 - current_dbfs ch in
  (Qabs error < 2.0 ->
   new_target_db d ch = None
   /\ published (run_mixing_logic now b)
      = (pass_commands now d pre ++ pass_commands now d post)%list)
  /\ (~ Qabs error < 2.0 ->
      new_target_db d ch = Some 0.0
      /\ exists n,
          Py.int (id ch) = Some n
          /\ published (run_mixing_logic now b)
             = (pass_commands now d pre
                  ++ [ {| address := ("/ch/" ++ Py.format_02d n ++ "/mix/11/level")%string;
                          args := [db_to_fader 0.0] |} ]
                  ++ pass_commands now d post)%list).
Proof.
  intros Hch Hok Ho Hg d error. subst d error.
  pose proof (not_overridden_check now ch Ho) as Hc.
  split; intros He.
  - assert (Ht : new_target_db (duck_amount_of b) ch = None).
    { rewrite (new_target_db_vocals _ _ Hg).
      apply lt_true in He. now rewrite He. }
    split; [exact Ht|].
    rewrite (published_split now b pre k ch post Hch Hok).
    unfold emitted. now rewrite (mix_channel_no_target _ _ _ _ _ Hc Ht).
  - assert (Ht : new_target_db (duck_amount_of b) ch = Some 0.0).
    { rewrite (new_target_db_vocals _ _ Hg).
      destruct (Qabs (-18.0 - current_dbfs ch) <? 2.0) eqn:E; [|reflexivity].
      apply lt_true in E. contradiction. }
    split; [exact Ht|].
    exact (published_with_target now b pre k ch post _ _ 0.0 Hch Hok Hc Ht).
Qed.

Lemma vocal_deadband_witness :
  published (run_mixing_logic 100 (brain_of [("3"%string, vocals_3 (-19.5))] false))
  = []
  /\ published (run_mixing_logic 100 (brain_of [("3"%string, vocals_3 (-12.0))] false))
     = [ {| address := "/ch/03/mix/11/level"; args := [db_to_fader 0.0] |} ].
Proof.
  split.
  - apply (proj1 (vocal_deadband 100 (brain_of [("3"%string, vocals_3 (-19.5))] false)
                    [] "3"%string (vocals_3 (-19.5)) []
                    eq_refl eq_refl eq_refl eq_refl)).
    reflexivity.
  - destruct (proj2 (vocal_deadband 100 (brain_of [("3"%string, vocals_3 (-12.0))] false)
                       [] "3"%string (vocals_3 (-12.0)) []
                       eq_refl eq_refl eq_refl eq_refl)) as (_ & n & Hn & Hp).
    + intros H. vm_compute in H. discriminate.
    + injection Hn as <-. exact Hp.
Defined.

(** ** Manual override *)

Lemma emitted_cleared now duck_amount ch :
  is_overridden ch = true -> override_end_time ch < now ->
  emitted now duck_amount ch
  = emitted now duck_amount (set_is_overridden false ch)
  /\ fst (fst (mix_channel now duck_amount ch)) = set_is_overridden false ch
  /\ snd (fst (mix_channel now duck_amount ch))
     = [("Override ended for " ++ name ch)%string]
  /\ snd (fst (mix_channel now duck_amount (set_is_overridden false ch))) = [].
Proof.
  intros Ho He. unfold emitted, mix_channel.
  rewrite (expired_check now ch Ho He).
  rewrite (not_overridden_check now (set_is_overridden false ch) eq_refl).
  destruct (new_target_db duck_amount (set_is_overridden false ch)); [|auto].
  destruct (Py.int (id (set_is_overridden false ch))); auto.
Qed.

(** C6.  A decision pass changes a channel object only by clearing an
    override whose end time has passed, so no channel goes from normal to
    overridden.  For a channel with [is_overridden] set: while
    now <= override_end_time it is skipped (the object is untouched, nothing
    is logged, no command is contributed); once now > override_end_time the
    flag is cleared, the transition is logged with one line, and in that same
    pass the channel contributes what the cleared channel contributes under
    the group policy, which logs nothing more. *)
Theorem override_lifecycle now b pre k ch post :
  channels b = (pre ++ (k, ch) :: post)%list ->
  ids_ok (channels b) = true ->
  is_overridden ch = true ->
  let d := duck_amount_of b in
  let r := run_mixing_logic now b in
  Forall2 (fun kc kc' => fst kc' = fst kc
                         /\ only_override_cleared now (snd kc) (snd kc'))
    (channels b) (channels (brain r))
  /\ (now <= override_end_time ch ->
      channels (brain r)
      = (pass_channels now d pre ++ (k, ch) :: pass_channels now d post)%list
      /\ logged r = (pass_logged now d pre ++ pass_logged now d post)%list
      /\ published r = (pass_commands now d pre ++ pass_commands now d post)%list)
  /\ (override_end_time ch < now ->
      let cleared := set_is_overridden false ch in
      channels (brain r)
      = (pass_channels now d pre ++ (k, cleared) :: pass_channels now d post)%list
      /\ logged r
         = (pass_logged now d pre
              ++ [("Override ended for " ++ name ch)%string]
              ++ pass_logged now d post)%list
      /\ published r
         = (pass_commands now d pre ++ emitted now d cleared
              ++ pass_commands now d post)%list
      /\ snd (fst (mix_channel now d cleared)) = []).
Proof.
  intros Hch Hok Ho d r. subst d r.
  destruct (run_split now b pre k ch post Hch Hok) as (Hp & Hl & Hc).
  split; [apply run_mixing_logic_channels|].
  split; intros He.
  - rewrite Hp, Hl, Hc. unfold emitted.
    rewrite (mix_channel_skip now _ ch (unexpired_check now ch Ho He)).
    auto.
  - cbv zeta. rewrite Hp, Hl, Hc.
    destruct (emitted_cleared now (duck_amount_of b) ch Ho He)
      as (-> & -> & -> & ->).
    auto.
Qed.

Lemma override_lifecycle_witness :
  published (run_mixing_logic 100 (brain_of [("2"%string, overridden_2 150)] false))
  = []
  /\ channels (brain (run_mixing_logic 100
                        (brain_of [("2"%string, overridden_2 50)] false)))
     = [("2"%string, set_is_overridden false (overridden_2 50))]
  /\ logged (run_mixing_logic 100 (brain_of [("2"%string, overridden_2 50)] false))
     = ["Override ended for Ch 2"%string]
  /\ published (run_mixing_logic 100 (brain_of [("2"%string, overridden_2 50)] false))
     = [ {| address := "/ch/02/mix/11/level"; args := [db_to_fader (0.0 + 0.0)] |} ].
Proof.
  split.
  - apply (proj1 (proj2 (override_lifecycle 100
                           (brain_of [("2"%string, overridden_2 150)] false)
                           [] "2"%string (overridden_2 150) []
                           eq_refl eq_refl eq_refl))).
    discriminate.
  - destruct (proj2 (proj2 (override_lifecycle 100
                              (brain_of [("2"%string, overridden_2 50)] false)
                              [] "2"%string (overridden_2 50) []
                              eq_refl eq_refl eq_refl)))
      as (Hc & Hl & Hp & _).
    + reflexivity.
    + split; [exact Hc|]. split; [exact Hl | exact Hp].
Defined.

(** ** The stored target *)

(** C7 (as amended).  A decision pass never writes [target_fader_level]:
    a channel that received a policy target has the same
    [target_fader_level] after the pass as before, and the conversion
    [db_to_fader target_db] is carried by the args of the command the channel
    contributes. *)
Theorem target_fader_level_untouched now b pre k ch post target_db :
  channels b = (pre ++ (k, ch) :: post)%list ->
  ids_ok (channels b) = true ->
  is_overridden ch = false \/ override_end_time ch < now ->
  new_target_db (duck_amount_of b) ch = Some target_db ->
  let d := duck_amount_of b in
  let r := run_mixing_logic now b in
  exists ch' n,
    channels (brain r)
    = (pass_channels now d pre ++ (k, ch') :: pass_channels now d post)%list
    /\ target_fader_level ch' = target_fader_level ch
    /\ Py.int (id ch) = Some n
    /\ published r
       = (pass_commands now d pre
            ++ [ {| address := ("/ch/" ++ Py.format_02d n ++ "/mix/11/level")%string;
                    args := [db_to_fader target_db] |} ]
            ++ pass_commands now d post)%list.
Proof.
  intros Hch Hok Hov Ht d r. subst d r.
  destruct (run_split now b pre k ch post Hch Hok) as (_ & _ & Hc).
  assert (Hchk : exists ch' lines, check_override now ch = Some (ch', lines)).
  { destruct (is_overridden ch) eqn:Ho.
    - destruct Hov as [Hov|Hov]; [discriminate|].
      rewrite (expired_check now ch Ho Hov). eauto.
    - rewrite (not_overridden_check now ch Ho). eauto. }
  destruct Hchk as (ch' & lines & Hchk).
  destruct (published_with_target now b pre k ch post ch' lines target_db
              Hch Hok Hchk Ht) as (n & Hn & Hp).
  exists ch', n.
  rewrite Hc, (mix_channel_append now _ ch ch' lines target_db n Hchk Ht Hn).
  destruct (check_override_fields now ch ch' lines Hchk) as (_ & _ & _ & _ & Hf & _).
  auto.
Qed.

Lemma target_fader_level_untouched_witness :
  exists ch' n,
    channels (brain (run_mixing_logic 100
                       (brain_of [("1"%string, speech_1); ("2"%string, drums_2)] true)))
    = (pass_channels 100 (-4.0) [("1"%string, speech_1)]
         ++ ("2"%string, ch') :: pass_channels 100 (-4.0) [])%list
    /\ target_fader_level ch' = target_fader_level drums_2
    /\ Py.int (id drums_2) = Some n
    /\ published (run_mixing_logic 100
                    (brain_of [("1"%string, speech_1); ("2"%string, drums_2)] true))
       = (pass_commands 100 (-4.0) [("1"%string, speech_1)]
            ++ [ {| address := ("/ch/" ++ Py.format_02d n ++ "/mix/11/level")%string;
                    args := [db_to_fader (0.0 + -4.0)] |} ]
            ++ pass_commands 100 (-4.0) [])%list.
Proof.
  apply (target_fader_level_untouched 100
           (brain_of [("1"%string, speech_1); ("2"%string, drums_2)] true)
           [("1"%string, speech_1)] "2"%string drums_2 [] (0.0 + -4.0)).
  - reflexivity.
  - reflexivity.
  - left. reflexivity.
  - reflexivity.
Defined.

(** C7 (as stated) fails.  After the scenario's cycle the drums channel "2"
    has the target -4.0 dB and its command carries [db_to_fader (0.0 + -4.0)],
    while its [target_fader_level] is still the 0.75 it was constructed
    with. *)
Lemma target_fader_level_not_assigned :
  let r := process_telemetry 100 scenario_levels scenario_brain in
  exists ch,
    Py.get "2" (channels (brain r)) = Some ch
    /\ group ch = "drums"%string
    /\ is_overridden ch = false
    /\ new_target_db (duck_amount_of (brain r)) ch = Some (0.0 + -4.0)
    /\ In {| address := "/ch/02/mix/11/level"; args := [db_to_fader (0.0 + -4.0)] |}
         (published r)
    /\ target_fader_level ch = 0.75
    /\ ~ target_fader_level ch == db_to_fader (0.0 + -4.0).
Proof.
  cbv zeta. eexists. split; [vm_compute; reflexivity|].
  repeat split.
  - right. left. reflexivity.
  - intros H. vm_compute in H. discriminate.
Qed.

(** ** Range of the emitted fader values *)

Lemma new_target_db_values duck_amount ch target_db :
  new_target_db duck_amount ch = Some target_db ->
  target_db = 0.0 + duck_amount \/ target_db = 0.0.
Proof.
  unfold new_target_db.
  repeat split_if; intros [= <-]; auto.
Qed.

Lemma mix_channel_append_inv now duck_amount ch ch' lines cmd :
  mix_channel now duck_amount ch = (ch', lines, Append cmd) ->
  exists target_db n,
    new_target_db duck_amount ch' = Some target_db
    /\ cmd = bus11_command n (db_to_fader target_db).
Proof.
  unfold mix_channel.
  destruct (check_override now ch) as [[ch1 lines1]|]; [|discriminate].
  destruct (new_target_db duck_amount ch1) as [t|] eqn:Ht; [|discriminate].
  destruct (Py.int (id ch1)) as [n|]; [|discriminate].
  intros [= E1 E2 E3]. subst ch' lines cmd.
  exists t, n. split; [exact Ht | reflexivity].
Qed.

Lemma gate_commands_normalized now (gate : bool) ch ch' lines cmd :
  mix_channel now (if gate then -4.0 else 0.0) ch = (ch', lines, Append cmd) ->
  normalized cmd.
Proof.
  intros H. apply mix_channel_append_inv in H as (t & n & Ht & ->).
  exists (db_to_fader t). split; [reflexivity|].
  apply new_target_db_values in Ht.
  destruct Ht as [-> | ->]; [destruct gate|]; split; vm_compute; discriminate.
Qed.

(** A property of every appended command holds of the batch, whether the
    loop runs to its end or raises. *)
Lemma mix_loop_batch (P : Command -> Prop) now duck_amount :
  (forall ch ch' lines cmd,
      mix_channel now duck_amount ch = (ch', lines, Append cmd) -> P cmd) ->
  forall chs commands,
    Forall P commands ->
    match snd (mix_loop now duck_amount chs commands) with
    | Some batch => Forall P batch
    | None => True
    end.
Proof.
  intros HP chs.
  induction chs as [|[k ch] rest IH]; intros commands Hacc; cbn [mix_loop].
  - exact Hacc.
  - destruct (mix_channel now duck_amount ch) as [[ch' lines] flow] eqn:E.
    destruct flow as [|cmd|].
    + specialize (IH commands Hacc).
      destruct (mix_loop now duck_amount rest commands) as [[rest' lines'] r].
      exact IH.
    + assert (Hacc' : Forall P (commands ++ [cmd])%list).
      { apply Forall_app. split; [exact Hacc|].
        constructor; [exact (HP _ _ _ _ E) | constructor]. }
      specialize (IH _ Hacc').
      destruct (mix_loop now duck_amount rest (commands ++ [cmd])%list)
        as [[rest' lines'] r].
      exact IH.
    + exact I.
Qed.

Lemma run_mixing_logic_normalized now b :
  Forall normalized (published (run_mixing_logic now b)).
Proof.
  pose proof (mix_loop_batch normalized now (duck_amount_of b)
                (gate_commands_normalized now (speech_active b))
                (channels b) [] (Forall_nil _)) as H.
  unfold run_mixing_logic.
  destruct (mix_loop now (duck_amount_of b) (channels b) []) as [[chs lines] r].
  cbn [snd published] in *. destruct r; [exact H | constructor].
Qed.

(** C8.  Every command published by a decision cycle, for every telemetry
    message and every channel table, carries exactly one argument, and that
    argument lies in [0.0, 1.0]. *)
Theorem fader_values_normalized now levels b :
  Forall (fun cmd => exists v, args cmd = [v] /\ 0.0 <= v <= 1.0)
    (published (process_telemetry now levels b))
  /\ Forall (fun cmd => exists v, args cmd = [v] /\ 0.0 <= v <= 1.0)
       (published (run_mixing_logic now b)).
Proof.
  split; [|apply run_mixing_logic_normalized].
  unfold process_telemetry.
  destruct (update_levels levels (channels b)) as [chs max_speech_db].
  apply run_mixing_logic_normalized.
Qed.

(** ** The update phase *)

Section DictLemmas.
Context {V : Type}.
Implicit Types (d : Py.dict V) (k : string) (f : V -> V).

Lemma get_update k k' f d :
  Py.get k (Py.update k' f d)
  = if (k =? k')%string then option_map f (Py.get k d) else Py.get k d.
Proof.
  induction d as [|[k0 v] d IH]; cbn [Py.update Py.get].
  - now destruct (k =? k')%string.
  - destruct (k' =? k0)%string eqn:E0; cbn [Py.get].
    + apply String.eqb_eq in E0. subst k0.
      now destruct (k =? k')%string.
    + destruct (k =? k0)%string eqn:E1; [|exact IH].
      apply String.eqb_eq in E1. subst k0.
      rewrite String.eqb_sym in E0. now rewrite E0.
Qed.

Lemma mem_update k k' f d : Py.mem k (Py.update k' f d) = Py.mem k d.
Proof.
  unfold Py.mem. rewrite get_update.
  destruct (k =? k')%string; [|reflexivity]. now destruct (Py.get k d).
Qed.

Lemma update_missing k f d : Py.get k d = None -> Py.update k f d = d.
Proof.
  induction d as [|[k0 v] d IH]; cbn [Py.update Py.get]; [reflexivity|].
  destruct (k =? k0)%string; [discriminate|].
  intros H. now rewrite (IH H).
Qed.

(** Two tables with the same keys in the same order and related values
    have related lookups. *)
Lemma get_related (R : V -> V -> Prop) k d d' v :
  Forall2 (fun kv kv' => fst kv' = fst kv /\ R (snd kv) (snd kv')) d d' ->
  Py.get k d = Some v ->
  exists v', Py.get k d' = Some v' /\ R v v'.
Proof.
  induction 1 as [|[k0 v0] [k1 v1] d d' [Hk HR] _ IH]; cbn [Py.get];
    [discriminate|].
  cbn [fst snd] in Hk, HR. subst k1.
  destruct (k =? k0)%string; [|exact IH].
  intros [= <-]. eauto.
Qed.
End DictLemmas.

Lemma update_level_fst chs max_speech_db ch_id db_val :
  fst (update_level (chs, max_speech_db) (ch_id, db_val))
  = Py.update ch_id (set_current_dbfs db_val) chs.
Proof.
  unfold update_level.
  destruct (Py.get ch_id chs) as [ch|] eqn:E.
  - now destruct ((group ch =? "speech")%string && (db_val >? -35.0)).
  - cbn [fst]. now rewrite update_missing.
Qed.

Lemma update_level_unknown st ch_id db_val :
  Py.mem ch_id (fst st) = false -> update_level st (ch_id, db_val) = st.
Proof.
  destruct st as [chs m]. unfold Py.mem, update_level. cbn [fst].
  now destruct (Py.get ch_id chs).
Qed.

Lemma max_above m db_val :
  (db_val >? -35.0) = true -> (Py.max m db_val >? -35.0) = true.
Proof.
  intros H. unfold Py.max. destruct (db_val >? m) eqn:E; [exact H|].
  apply gt_true. order_facts. lra.
Qed.

Section UpdatePhase.
Variable chs0 : Py.dict ChannelStrip.

(** The loop over the readings keeps the keys of the table and the group
    of every channel. *)
Lemma same_groups_update chs ch_id db_val :
  same_groups chs0 chs ->
  same_groups chs0
    (Py.update ch_id (set_current_dbfs db_val) chs).
Proof.
  intros H k. rewrite get_update, <- (H k).
  destruct (k =? ch_id)%string; [|reflexivity]. now destruct (Py.get k chs).
Qed.

Lemma same_groups_mem chs k :
  same_groups chs0 chs -> Py.mem k chs = Py.mem k chs0.
Proof.
  intros H. unfold Py.mem. specialize (H k).
  destruct (Py.get k chs), (Py.get k chs0); try reflexivity; discriminate.
Qed.

Lemma same_groups_opens_gate chs m ch_id db_val :
  same_groups chs0 chs ->
  snd (update_level (chs, m) (ch_id, db_val))
  = if opens_gate chs0 (ch_id, db_val) then Py.max m db_val else m.
Proof.
  intros H. unfold update_level, opens_gate. cbn [fst snd].
  specialize (H ch_id).
  destruct (Py.get ch_id chs) as [ch|], (Py.get ch_id chs0) as [ch0|];
    try discriminate; [|reflexivity].
  injection H as ->.
  now destruct ((group ch0 =? "speech")%string && (db_val >? -35.0)).
Qed.

(** The gate test after the loop: the test before it, or some reading
    opened the gate; and when none did, [max_speech_db] is untouched. *)
Lemma update_loop_gate levels chs m :
  same_groups chs0 chs ->
  (snd (fold_left update_level levels (chs, m)) >? -35.0)
  = (m >? -35.0) || existsb (opens_gate chs0) levels
  /\ (existsb (opens_gate chs0) levels = false ->
      snd (fold_left update_level levels (chs, m)) = m).
Proof.
  revert chs m.
  induction levels as [|[ch_id db_val] rest IH]; intros chs m H;
    cbn [fold_left existsb].
  - now rewrite orb_false_r.
  - pose proof (update_level_fst chs m ch_id db_val) as Hf.
    pose proof (same_groups_opens_gate chs m ch_id db_val H) as Hs.
    destruct (update_level (chs, m) (ch_id, db_val)) as [chs1 m1].
    cbn [fst snd] in Hf, Hs. subst chs1 m1.
    destruct (IH _ (if opens_gate chs0 (ch_id, db_val)
                    then Py.max m db_val else m)
                (same_groups_update chs ch_id db_val H)) as [IH1 IH2].
    rewrite IH1. clear IH1.
    destruct (opens_gate chs0 (ch_id, db_val)) eqn:E; cbn [orb].
    + split; [|discriminate].
      assert (Hd : (db_val >? -35.0) = true).
      { unfold opens_gate in E. cbn [fst snd] in E.
        destruct (Py.get ch_id chs0); [|discriminate].
        now apply andb_true_iff in E. }
      rewrite (max_above m db_val Hd). cbn [orb]. now rewrite orb_true_r.
    + split; [reflexivity | exact IH2].
Qed.

(** Readings with an unknown id can be dropped from the message. *)
Lemma update_loop_known levels st :
  same_groups chs0 (fst st) ->
  fold_left update_level levels st
  = fold_left update_level (known_levels chs0 levels) st.
Proof.
  revert st.
  induction levels as [|[ch_id db_val] rest IH]; intros [chs m] H;
    cbn [fold_left known_levels filter fst]; [reflexivity|].
  cbn [fst] in H. fold (known_levels chs0 rest).
  destruct (Py.mem ch_id chs0) eqn:E.
  - cbn [fold_left]. apply IH.
    pose proof (update_level_fst chs m ch_id db_val) as Hf.
    rewrite Hf. now apply same_groups_update.
  - rewrite update_level_unknown.
    + now apply IH.
    + cbn [fst]. now rewrite (same_groups_mem chs ch_id H).
Qed.
End UpdatePhase.

Lemma same_groups_refl chs : same_groups chs chs.
Proof. intros k. reflexivity. Qed.

Lemma run_mixing_logic_gate now b :
  speech_active (brain (run_mixing_logic now b)) = speech_active b.
Proof.
  unfold run_mixing_logic.
  now destruct (mix_loop now (duck_amount_of b) (channels b) []) as [[chs lines] r].
Qed.

Lemma process_telemetry_gate now levels b :
  speech_active (brain (process_telemetry now levels b))
  = (snd (update_levels levels (channels b)) >? -35.0).
Proof.
  unfold process_telemetry.
  destruct (update_levels levels (channels b)) as [chs m].
  now rewrite run_mixing_logic_gate.
Qed.

(** ** The ducking gate *)

(** C4.  After a decision cycle the ducking gate is active exactly when the
    message holds a reading strictly above -35.0 dB for a speech channel of
    the table.  A reading of exactly -35.0 dB does not open it; and when no
    speech reading is above -35.0 dB (no speech channel, or none in the
    message) [max_speech_db] is the floor -90.0 and the gate is inactive. *)
Theorem ducking_gate_threshold now levels b :
  (speech_active (brain (process_telemetry now levels b)) = true
   <-> exists ch_id db_val ch,
         In (ch_id, db_val) levels
         /\ Py.get ch_id (channels b) = Some ch
         /\ group ch = "speech"%string
         /\ -35.0 < db_val)
  /\ ((forall ch_id db_val ch,
         In (ch_id, db_val) levels ->
         Py.get ch_id (channels b) = Some ch ->
         group ch = "speech"%string ->
         db_val <= -35.0) ->
      snd (update_levels levels (channels b)) = -90.0
      /\ speech_active (brain (process_telemetry now levels b)) = false).
Proof.
  rewrite process_telemetry_gate. unfold update_levels.
  destruct (update_loop_gate (channels b) levels (channels b) (-90.0)
              (same_groups_refl _)) as [Hg Hm].
  rewrite Hg. change (-90.0 >? -35.0) with false. cbn [orb].
  assert (Hex : existsb (opens_gate (channels b)) levels = true
                <-> exists ch_id db_val ch,
                      In (ch_id, db_val) levels
                      /\ Py.get ch_id (channels b) = Some ch
                      /\ group ch = "speech"%string
                      /\ -35.0 < db_val).
  { rewrite existsb_exists. unfold opens_gate. split.
    - intros ([ch_id db_val] & Hin & H). cbn [fst snd] in H.
      destruct (Py.get ch_id (channels b)) as [ch|] eqn:E; [|discriminate].
      apply andb_true_iff in H as [H1 H2].
      apply String.eqb_eq in H1. apply gt_true in H2.
      exists ch_id, db_val, ch. auto.
    - intros (ch_id & db_val & ch & Hin & E & H1 & H2).
      exists (ch_id, db_val). split; [exact Hin|]. cbn [fst snd].
      rewrite E. apply andb_true_iff. split.
      + now apply String.eqb_eq.
      + now apply gt_true. }
  split; [exact Hex|].
  intros Hno.
  assert (Hf : existsb (opens_gate (channels b)) levels = false).
  { apply not_true_iff_false. intros H. apply Hex in H.
    destruct H as (ch_id & db_val & ch & Hin & E & H1 & H2).
    specialize (Hno ch_id db_val ch Hin E H1). lra. }
  split; [exact (Hm Hf) | exact Hf].
Qed.

Lemma ducking_gate_threshold_witness :
  speech_active (brain (process_telemetry 100 [("1"%string, -35.0)] scenario_brain))
  = false
  /\ speech_active (brain (process_telemetry 100 [("1"%string, -34.9)] scenario_brain))
     = true
  /\ speech_active (brain (process_telemetry 100 [("2"%string, -3.0)] scenario_brain))
     = false.
Proof.
  split; [|split].
  - apply (proj2 (ducking_gate_threshold 100 [("1"%string, -35.0)] scenario_brain)).
    intros ch_id db_val ch [[= <- <-]|[]] _ _. discriminate.
  - apply (proj1 (ducking_gate_threshold 100 [("1"%string, -34.9)] scenario_brain)).
    exists "1"%string, (-34.9), speech_1.
    split; [left; reflexivity|]. split; [reflexivity|].
    split; reflexivity.
  - apply (proj2 (ducking_gate_threshold 100 [("2"%string, -3.0)] scenario_brain)).
    intros ch_id db_val ch [[= <- <-]|[]] Hget Hg.
    injection Hget as <-. discriminate Hg.
Defined.

(** ** Unknown channel ids *)

Lemma set_current_dbfs_ids_ok chs ch_id db_val :
  ids_ok (Py.update ch_id (set_current_dbfs db_val) chs) = ids_ok chs.
Proof.
  induction chs as [|[k ch] rest IH]; cbn [Py.update]; [reflexivity|].
  destruct (ch_id =? k)%string; cbn [ids_ok forallb snd]; [reflexivity|].
  fold (ids_ok rest). fold (ids_ok (Py.update ch_id (set_current_dbfs db_val) rest)).
  now rewrite IH.
Qed.

Lemma update_loop_ids_ok levels chs m :
  ids_ok (fst (fold_left update_level levels (chs, m))) = ids_ok chs.
Proof.
  revert chs m.
  induction levels as [|[ch_id db_val] rest IH]; intros chs m; cbn [fold_left];
    [reflexivity|].
  pose proof (update_level_fst chs m ch_id db_val) as Hf.
  destruct (update_level (chs, m) (ch_id, db_val)) as [chs1 m1].
  cbn [fst] in Hf. subst chs1.
  now rewrite IH, set_current_dbfs_ids_ok.
Qed.

(** A reading for another id leaves the level stored under [k] alone. *)
Lemma update_loop_other levels k chs m :
  ~ In k (map fst levels) ->
  option_map current_dbfs (Py.get k (fst (fold_left update_level levels (chs, m))))
  = option_map current_dbfs (Py.get k chs).
Proof.
  revert chs m.
  induction levels as [|[ch_id db_val] rest IH]; intros chs m Hk;
    cbn [fold_left]; [reflexivity|].
  cbn [map fst In] in Hk.
  pose proof (update_level_fst chs m ch_id db_val) as Hf.
  destruct (update_level (chs, m) (ch_id, db_val)) as [chs1 m1].
  cbn [fst] in Hf. subst chs1.
  rewrite IH by tauto. rewrite get_update.
  destruct (k =? ch_id)%string eqn:E; [|reflexivity].
  apply String.eqb_eq in E. subst ch_id. tauto.
Qed.

(** The reading for a known id is the level stored under it after the
    loop, for a message that is a dict (no id twice). *)
Lemma update_loop_sets levels ch_id db_val chs m :
  NoDup (map fst levels) ->
  In (ch_id, db_val) levels ->
  Py.mem ch_id chs = true ->
  option_map current_dbfs
    (Py.get ch_id (fst (fold_left update_level levels (chs, m))))
  = Some db_val.
Proof.
  revert chs m.
  induction levels as [|[k v] rest IH]; intros chs m Hnd Hin Hmem;
    [destruct Hin|].
  cbn [fold_left]. cbn [map fst] in Hnd. inversion Hnd as [|? ? Hk Hnd']; subst.
  pose proof (update_level_fst chs m k v) as Hf.
  destruct (update_level (chs, m) (k, v)) as [chs1 m1].
  cbn [fst] in Hf. subst chs1.
  destruct Hin as [[= -> ->]|Hin].
  - rewrite (update_loop_other rest ch_id _ m1 Hk), get_update, String.eqb_refl.
    unfold Py.mem in Hmem. now destruct (Py.get ch_id chs).
  - apply IH; auto. now rewrite mem_update.
Qed.

Lemma run_mixing_logic_no_raise now b :
  ids_ok (channels b) = true -> raised (run_mixing_logic now b) = false.
Proof.
  intros Hok. unfold run_mixing_logic.
  now rewrite (mix_loop_ok now (duck_amount_of b) (channels b) [] Hok).
Qed.

(** C9.  Readings whose id is not in the table are ignored: the cycle ends
    exactly as on the message without them (same table, same gate, same log,
    same commands), and it does not raise on a table whose ids are channel
    numbers.  Each reading whose id is in the table is the [current_dbfs] of
    that channel after the cycle. *)
Theorem unknown_ids_ignored now levels b :
  process_telemetry now levels b
  = process_telemetry now (known_levels (channels b) levels) b
  /\ (ids_ok (channels b) = true ->
      raised (process_telemetry now levels b) = false)
  /\ (NoDup (map fst levels) ->
      forall ch_id db_val,
        In (ch_id, db_val) levels ->
        Py.mem ch_id (channels b) = true ->
        exists ch,
          Py.get ch_id (channels (brain (process_telemetry now levels b)))
          = Some ch
          /\ current_dbfs ch = db_val).
Proof.
  split; [|split].
  - unfold process_telemetry, update_levels.
    now rewrite <- (update_loop_known (channels b) levels (channels b, -90.0)
                      (same_groups_refl _)).
  - intros Hok. unfold process_telemetry, update_levels.
    pose proof (update_loop_ids_ok levels (channels b) (-90.0)) as H.
    destruct (fold_left update_level levels (channels b, -90.0)) as [chs m].
    cbn [fst] in H. apply run_mixing_logic_no_raise.
    cbn [channels]. now rewrite H.
  - intros Hnd ch_id db_val Hin Hmem.
    pose proof (update_loop_sets levels ch_id db_val (channels b) (-90.0)
                  Hnd Hin Hmem) as H.
    unfold process_telemetry, update_levels.
    destruct (fold_left update_level levels (channels b, -90.0)) as [chs m].
    cbn [fst] in H.
    destruct (Py.get ch_id chs) as [ch1|] eqn:E; [|discriminate].
    injection H as H.
    destruct (get_related (only_override_cleared now) ch_id _ _ ch1
                (run_mixing_logic_channels now
                   {| channels := chs; speech_active := m >? -35.0;
                      TARGET_BUS_IDX := TARGET_BUS_IDX b |}) E)
      as (ch2 & Hget & Hrel).
    exists ch2. split; [exact Hget|].
    destruct Hrel as [-> | (_ & _ & ->)]; exact H.
Qed.

Lemma unknown_ids_ignored_witness :
  process_telemetry 100 levels_with_unknown scenario_brain
  = process_telemetry 100 scenario_levels scenario_brain
  /\ raised (process_telemetry 100 levels_with_unknown scenario_brain) = false
  /\ exists ch,
      Py.get "2" (channels (brain (process_telemetry 100 levels_with_unknown
                                     scenario_brain)))
      = Some ch
      /\ current_dbfs ch = -40.0.
Proof.
  split; [|split].
  - exact (proj1 (unknown_ids_ignored 100 levels_with_unknown scenario_brain)).
  - apply (proj1 (proj2 (unknown_ids_ignored 100 levels_with_unknown scenario_brain))).
    reflexivity.
  - apply (proj2 (proj2 (unknown_ids_ignored 100 levels_with_unknown scenario_brain))).
    + repeat constructor; cbn; intuition discriminate.
    + right. right. left. reflexivity.
    + reflexivity.
Defined.

(** * Further properties of the code *)

(** ** The fader curve, beyond the breakpoints *)

(** X1.  [db_to_fader] undoes [fader_to_db] for every fader position
    strictly above 0.0625, with no upper limit; a position at or below
    0.0625 comes back as 0.0. *)
Theorem fader_round_trip (fader : Q) :
  (0.0625 < fader -> db_to_fader (fader_to_db fader) == fader)
  /\ (fader <= 0.0625 -> db_to_fader (fader_to_db fader) == 0.0).
Proof.
  split; intros H; unfold fader_to_db; repeat split_if;
    unfold db_to_fader; curve.
Qed.

Lemma fader_round_trip_witness :
  db_to_fader (fader_to_db 0.65) == 0.65
  /\ db_to_fader (fader_to_db 0.03) == 0.0.
Proof.
  split.
  - apply (proj1 (fader_round_trip 0.65)). reflexivity.
  - apply (proj2 (fader_round_trip 0.03)). discriminate.
Defined.

(** X2.  Both directions of the curve are monotone: a louder level never
    maps to a lower fader position, and a higher position never to a lower
    level. *)
Theorem curve_monotone (a b : Q) :
  a <= b ->
  db_to_fader a <= db_to_fader b /\ fader_to_db a <= fader_to_db b.
Proof.
  intros H. split.
  - unfold db_to_fader; curve.
  - unfold fader_to_db; curve.
Qed.

Lemma curve_monotone_witness :
  db_to_fader (-61.0) <= db_to_fader (-4.0)
  /\ fader_to_db 0.0625 <= fader_to_db 0.5.
Proof.
  split.
  - apply (proj1 (curve_monotone (-61.0) (-4.0) ltac:(discriminate))).
  - apply (proj2 (curve_monotone 0.0625 0.5 ltac:(discriminate))).
Defined.


(** ** Loading the configuration *)

Section SetLemmas.
Context {V : Type}.
Implicit Types (d : Py.dict V) (k : string) (v : V).

(** Storing under a key that the dict does not have appends the entry. *)
Lemma set_fresh k v d :
  ~ In k (map fst d) -> Py.set k v d = (d ++ [(k, v)])%list.
Proof.
  induction d as [|[k0 v0] d IH]; cbn [Py.set map fst In app]; intros H;
    [reflexivity|].
  destruct (k =? k0)%string eqn:E.
  - apply String.eqb_eq in E. subst k0. tauto.
  - rewrite IH by tauto. reflexivity.
Qed.
End SetLemmas.

(** The loop of [load_config] over entries with distinct keys, none of which
    is in the table yet, appends one fresh channel per entry. *)
Lemma load_loop_distinct entries chs :
  NoDup (map fst chs ++ map fst entries) ->
  fold_left
    (fun chs '(ch_id, ch_data) =>
       Py.set ch_id (ChannelStrip_init ch_id ch_data) chs)
    entries chs
  = (chs ++ map (fun e => (fst e, ChannelStrip_init (fst e) (snd e))) entries)%list.
Proof.
  revert chs.
  induction entries as [|[k cfg] rest IH]; intros chs Hnd; cbn [fold_left map].
  - now rewrite app_nil_r.
  - cbn [map fst] in Hnd.
    rewrite set_fresh.
    + rewrite IH.
      * rewrite <- app_assoc. reflexivity.
      * rewrite map_app. cbn [map fst]. rewrite <- app_assoc. exact Hnd.
    + apply NoDup_remove_2 in Hnd. intros Hin. apply Hnd.
      apply in_or_app. now left.
Qed.

(** X4.  A configuration file is a JSON object, so its channel keys are
    distinct.  Loading it builds the table in the order of the file, one
    channel per entry, each constructed by [ChannelStrip.__init__] from its
    entry under its own key; the target buses are the configured ones, or
    [11; 12] when the file has none; the gate starts closed. *)
Theorem load_config_table (data : ConfigData) :
  NoDup (map fst (or_default (cfg_channels data) [])) ->
  let b := BrainCore_init (Some data) in
  channels b
  = map (fun e => (fst e, ChannelStrip_init (fst e) (snd e)))
      (or_default (cfg_channels data) [])
  /\ TARGET_BUS_IDX b = or_default (cfg_target_bus data) [11; 12]%Z
  /\ speech_active b = false.
Proof.
  intros Hnd. cbv zeta. unfold BrainCore_init, load_config. cbn [channels].
  split; [|split; reflexivity].
  exact (load_loop_distinct _ [] Hnd).
Qed.

Lemma load_config_table_witness :
  channels (BrainCore_init (Some two_drums))
  = [("7"%string, ChannelStrip_init "7" (group_only "drums"));
     ("8"%string, ChannelStrip_init "8" (group_only "band"))]
  /\ TARGET_BUS_IDX (BrainCore_init (Some two_drums)) = [5; 6]%Z
  /\ speech_active (BrainCore_init (Some two_drums)) = false.
Proof.
  apply (load_config_table two_drums).
  repeat constructor; cbn; intuition discriminate.
Defined.

(** X5.  Every channel of a freshly loaded table, whatever the file holds,
    carries its key as [id], is not overridden, reads the silence floor
    -90.0 and has the unity target 0.75; its group is the configured one, or
    "ignore" when the entry has none. *)
Theorem loaded_channels_fresh (data : ConfigData) k ch :
  In (k, ch) (channels (BrainCore_init (Some data))) ->
  id ch = k /\ is_overridden ch = false
  /\ current_dbfs ch = -90.0 /\ target_fader_level ch = 0.75
  /\ exists cfg,
      In (k, cfg) (or_default (cfg_channels data) [])
      /\ group ch = or_default (cfg_group cfg) "ignore"%string.
Proof.
  unfold BrainCore_init, load_config. cbn [channels].
  assert (H : forall entries chs,
             In (k, ch)
               (fold_left
                  (fun chs '(ch_id, ch_data) =>
                     Py.set ch_id (ChannelStrip_init ch_id ch_data) chs)
                  entries chs) ->
             In (k, ch) chs
             \/ exists cfg, In (k, cfg) entries /\ ch = ChannelStrip_init k cfg).
  { induction entries as [|[k0 cfg0] rest IH]; intros chs Hin; cbn [fold_left] in Hin.
    - now left.
    - apply IH in Hin as [Hin | (cfg & Hin & ->)].
      + assert (Hset : forall d : Py.dict ChannelStrip,
                   In (k, ch) (Py.set k0 (ChannelStrip_init k0 cfg0) d) ->
                   In (k, ch) d \/ (k, ch) = (k0, ChannelStrip_init k0 cfg0)).
        { induction d as [|[k1 v1] d IHd]; cbn [Py.set].
          - intros [H|[]]; auto.
          - destruct (k0 =? k1)%string eqn:E.
            + apply String.eqb_eq in E. subst k1.
              intros [H|H]; [right; exact (eq_sym H) | left; now right].
            + intros [H|H]; [left; now left|].
              apply IHd in H as [H|H]; [left; now right | now right]. }
        apply Hset in Hin as [Hin | [= -> ->]]; [now left|].
        right. exists cfg0. split; [now left | reflexivity].
      + right. exists cfg. split; [now right | reflexivity]. }
  intros Hin. apply H in Hin as [[] | (cfg & Hin & ->)].
  cbn. repeat split. exists cfg. split; [exact Hin | reflexivity].
Qed.

Lemma loaded_channels_fresh_witness :
  id drums_2 = "2"%string /\ is_overridden drums_2 = false
  /\ current_dbfs drums_2 = -90.0 /\ target_fader_level drums_2 = 0.75
  /\ exists cfg,
      In ("2"%string, cfg) (or_default (cfg_channels scenario_config) [])
      /\ group drums_2 = or_default (cfg_group cfg) "ignore"%string.
Proof.
  apply (loaded_channels_fresh scenario_config "2"%string drums_2).
  right. left. reflexivity.
Defined.

(** ** The degraded mode *)

Lemma update_loop_empty levels m :
  fold_left update_level levels ([], m) = ([], m).
Proof.
  induction levels as [|[ch_id db_val] rest IH]; cbn [fold_left]; [reflexivity|].
  exact IH.
Qed.

(** X6.  With an empty channel table (a missing or unparseable configuration
    file, or a file without channels) a decision cycle does nothing, whatever
    the telemetry: no command, no log line, no exception, the gate closed and
    the table still empty, so the same holds for every later cycle. *)
Theorem empty_table_is_inert now levels b :
  channels b = [] ->
  process_telemetry now levels b
  = {| brain := {| channels := []; speech_active := false;
                   TARGET_BUS_IDX := TARGET_BUS_IDX b |};
       logged := []; published := []; raised := false |}.
Proof.
  intros H. unfold process_telemetry, update_levels.
  rewrite H, update_loop_empty. reflexivity.
Qed.

Lemma empty_table_is_inert_witness :
  process_telemetry 100 scenario_levels (BrainCore_init None)
  = {| brain := BrainCore_init None;
       logged := []; published := []; raised := false |}.
Proof.
  apply (empty_table_is_inert 100 scenario_levels (BrainCore_init None)).
  reflexivity.
Defined.

(** ** What a decision cycle keeps *)

Section Forall2Lemmas.
Context {A : Type}.

Lemma Forall2_compose (R S T : A -> A -> Prop) l1 l2 l3 :
  (forall a b c, R a b -> S b c -> T a c) ->
  Forall2 R l1 l2 -> Forall2 S l2 l3 -> Forall2 T l1 l3.
Proof.
  intros HT H12. revert l3.
  induction H12 as [|a b l1 l2 Hab _ IH]; intros l3 H23; inversion H23; subst;
    constructor; eauto.
Qed.

Lemma Forall2_refl_on (R : A -> A -> Prop) l :
  (forall a, R a a) -> Forall2 R l l.
Proof. intros HR. induction l; constructor; auto. Qed.

Lemma Forall2_In_r (R : A -> A -> Prop) l l' y :
  Forall2 R l l' -> In y l' -> exists x, In x l /\ R x y.
Proof.
  induction 1 as [|a b l l' Hab _ IH]; intros Hin; [destruct Hin|].
  destruct Hin as [<-|Hin].
  - exists a. split; [now left | exact Hab].
  - destruct (IH Hin) as (x & Hx & HR). exists x. split; [now right | exact HR].
Qed.
End Forall2Lemmas.

Lemma level_changed_refl kc : level_changed kc kc.
Proof. unfold level_changed, same_settings. auto 10. Qed.

Lemma level_changed_trans a b c :
  level_changed a b -> level_changed b c -> level_changed a c.
Proof.
  unfold level_changed, same_settings.
  intros (? & (? & ? & ? & ? & ? & ? & ?) & ?) (? & (? & ? & ? & ? & ? & ? & ?) & ?).
  repeat split; congruence.
Qed.

Lemma update_level_changed ch_id db_val chs :
  Forall2 level_changed chs (Py.update ch_id (set_current_dbfs db_val) chs).
Proof.
  induction chs as [|[k ch] rest IH]; cbn [Py.update]; [constructor|].
  destruct (ch_id =? k)%string; constructor; auto.
  - unfold level_changed, same_settings. cbn. auto 10.
  - apply Forall2_refl_on, level_changed_refl.
  - apply level_changed_refl.
Qed.

Lemma update_loop_level_changed levels (chs : Py.dict ChannelStrip) m :
  Forall2 level_changed chs (fst (fold_left update_level levels (chs, m))).
Proof.
  revert chs m.
  induction levels as [|[ch_id db_val] rest IH]; intros chs m; cbn [fold_left].
  - apply Forall2_refl_on, level_changed_refl.
  - pose proof (update_level_fst chs m ch_id db_val) as Hf.
    destruct (update_level (chs, m) (ch_id, db_val)) as [chs1 m1].
    cbn [fst] in Hf. subst chs1.
    apply (Forall2_compose level_changed level_changed level_changed
             _ _ _ level_changed_trans
             (update_level_changed ch_id db_val chs) (IH _ m1)).
Qed.

(** The table a cycle's pass runs on, and what the cycle is on it. *)
Lemma process_telemetry_pass now levels b :
  exists chs m,
    update_levels levels (channels b) = (chs, m)
    /\ Forall2 level_changed (channels b) chs
    /\ process_telemetry now levels b
       = run_mixing_logic now
           {| channels := chs; speech_active := m >? -35.0;
              TARGET_BUS_IDX := TARGET_BUS_IDX b |}.
Proof.
  pose proof (update_loop_level_changed levels (channels b) (-90.0)) as H.
  unfold process_telemetry, update_levels in *.
  destruct (fold_left update_level levels (channels b, -90.0)) as [chs m].
  exists chs, m. auto.
Qed.

(** X7.  A decision cycle never adds, removes, renames or reorders channels:
    the table after it has the same keys in the same order, and under each
    key a channel with the same id, name, group, priority, fader levels and
    override end time.  Only [current_dbfs] and [is_overridden] can change,
    and [is_overridden] is never switched on.  This holds also when the cycle
    raises. *)
Theorem cycle_keeps_table now levels b :
  Forall2 (fun kc kc' =>
             fst kc' = fst kc
             /\ same_settings (snd kc) (snd kc')
             /\ (is_overridden (snd kc') = true -> is_overridden (snd kc) = true))
    (channels b) (channels (brain (process_telemetry now levels b))).
Proof.
  destruct (process_telemetry_pass now levels b) as (chs & m & _ & Hup & ->).
  refine (Forall2_compose _ _ _ _ _ _ _ Hup
            (run_mixing_logic_channels now
               {| channels := chs; speech_active := m >? -35.0;
                  TARGET_BUS_IDX := TARGET_BUS_IDX b |})).
  intros a c d (Hk & Hs & Ho) (Hk' & Hc). cbn [channels] in *.
  split; [congruence|].
  destruct Hc as [-> | (_ & _ & ->)].
  - split; [exact Hs | congruence].
  - split; [|discriminate].
    unfold same_settings in *. cbn. exact Hs.
Qed.

(** ** How much a cycle publishes *)

Lemma mix_loop_length now duck_amount chs commands :
  match snd (mix_loop now duck_amount chs commands) with
  | Some batch =>
      (List.length batch <= List.length commands + List.length chs)%nat
  | None => True
  end.
Proof.
  revert commands.
  induction chs as [|[k ch] rest IH]; intros commands; cbn [mix_loop].
  - cbn. lia.
  - destruct (mix_channel now duck_amount ch) as [[ch' lines] flow].
    destruct flow as [|cmd|].
    + specialize (IH commands).
      destruct (mix_loop now duck_amount rest commands) as [[rest' lines'] r].
      cbn [snd List.length] in *. destruct r; [lia | exact I].
    + specialize (IH (commands ++ [cmd])%list).
      destruct (mix_loop now duck_amount rest (commands ++ [cmd])%list)
        as [[rest' lines'] r].
      cbn [snd] in *. destruct r; [|exact I].
      rewrite length_app in IH. cbn [List.length] in *. lia.
    + exact I.
Qed.

Lemma run_mixing_logic_length now b :
  (List.length (published (run_mixing_logic now b))
   <= List.length (channels b))%nat.
Proof.
  pose proof (mix_loop_length now (duck_amount_of b) (channels b) []) as H.
  unfold run_mixing_logic.
  destruct (mix_loop now (duck_amount_of b) (channels b) []) as [[chs lines] r].
  cbn [snd published List.length] in *. destruct r; cbn [List.length]; lia.
Qed.

(** X8.  A decision cycle publishes at most one command per configured
    channel, whatever the telemetry holds (readings for unknown ids add
    none). *)
Theorem at_most_one_command_per_channel now levels b :
  (List.length (published (process_telemetry now levels b))
   <= List.length (channels b))%nat.
Proof.
  destruct (process_telemetry_pass now levels b) as (chs & m & _ & Hup & ->).
  rewrite (Forall2_length Hup). apply run_mixing_logic_length.
Qed.

(** ** Passing again *)

Lemma mix_channel_settled now duck_amount ch :
  mix_channel now duck_amount (fst (fst (mix_channel now duck_amount ch)))
  = (fst (fst (mix_channel now duck_amount ch)), [],
     snd (mix_channel now duck_amount ch)).
Proof.
  unfold mix_channel at 2 3 4.
  destruct (check_override now ch) as [[ch' lines]|] eqn:Hc.
  - destruct (check_override_fields now ch ch' lines Hc) as (_ & _ & _ & _ & _ & _ & Ho).
    assert (H : mix_channel now duck_amount ch'
                = (ch', [],
                   snd (match new_target_db duck_amount ch' with
                        | Some target_db =>
                            match Py.int (id ch') with
                            | Some n =>
                                (ch', lines,
                                 Append (bus11_command n (db_to_fader target_db)))
                            | None => (ch', lines, ValueError)
                            end
                        | None => (ch', lines, Continue)
                        end))).
    { unfold mix_channel. rewrite (not_overridden_check now ch' Ho).
      destruct (new_target_db duck_amount ch'); [|reflexivity].
      now destruct (Py.int (id ch')). }
    destruct (new_target_db duck_amount ch'); [|exact H].
    destruct (Py.int (id ch')); exact H.
  - cbn [fst snd]. unfold mix_channel. now rewrite Hc.
Qed.

Lemma mix_loop_settled now duck_amount chs commands :
  mix_loop now duck_amount
    (fst (fst (mix_loop now duck_amount chs commands))) commands
  = (fst (fst (mix_loop now duck_amount chs commands)), [],
     snd (mix_loop now duck_amount chs commands)).
Proof.
  revert commands.
  induction chs as [|[k ch] rest IH]; intros commands; [reflexivity|].
  cbn [mix_loop].
  pose proof (mix_channel_settled now duck_amount ch) as Hs.
  destruct (mix_channel now duck_amount ch) as [[ch' lines] flow].
  cbn [fst snd] in Hs.
  destruct flow as [|cmd|].
  - specialize (IH commands).
    destruct (mix_loop now duck_amount rest commands) as [[rest' lines'] r].
    cbn [fst snd] in *. cbn [mix_loop]. now rewrite Hs, IH.
  - specialize (IH (commands ++ [cmd])%list).
    destruct (mix_loop now duck_amount rest (commands ++ [cmd])%list)
      as [[rest' lines'] r].
    cbn [fst snd] in *. cbn [mix_loop]. now rewrite Hs, IH.
  - cbn [fst snd mix_loop]. now rewrite Hs.
Qed.

(** X9.  Running the decision pass again at the same clock reading, on the
    brain the first pass left, publishes the same batch again (no change
    detection), logs nothing (an expired override is reported once) and
    leaves the brain as it is; if the first pass raised, so does the
    second. *)
Theorem second_pass_repeats now b :
  let r := run_mixing_logic now b in
  run_mixing_logic now (brain r)
  = {| brain := brain r; logged := [];
       published := published r; raised := raised r |}.
Proof.
  cbv zeta. unfold run_mixing_logic.
  pose proof (mix_loop_settled now (duck_amount_of b) (channels b) []) as H.
  destruct (mix_loop now (duck_amount_of b) (channels b) []) as [[chs lines] r].
  cbn [fst snd] in H. cbn [brain channels published raised].
  unfold duck_amount_of in *. cbn [speech_active TARGET_BUS_IDX].
  now rewrite H.
Qed.

(** ** Channels without a policy *)

Lemma no_policy_no_target duck_amount ch :
  has_policy (group ch) = false -> new_target_db duck_amount ch = None.
Proof.
  unfold has_policy, new_target_db.
  destruct (group ch =? "drums")%string, (group ch =? "band")%string,
    (group ch =? "vocals")%string, (group ch =? "speech")%string;
    cbn [orb]; intros H; try discriminate H; reflexivity.
Qed.

Lemma mix_loop_silent now duck_amount chs commands :
  (forall kc, In kc chs -> has_policy (group (snd kc)) = false) ->
  snd (mix_loop now duck_amount chs commands) = Some commands.
Proof.
  induction chs as [|[k ch] rest IH]; intros H; [reflexivity|].
  cbn [mix_loop].
  assert (Hf : snd (mix_channel now duck_amount ch) = Continue).
  { unfold mix_channel.
    destruct (check_override now ch) as [[ch' lines]|] eqn:Hc; [|reflexivity].
    destruct (check_override_fields now ch ch' lines Hc) as (_ & _ & Hg & _).
    rewrite (no_policy_no_target duck_amount ch'); [reflexivity|].
    rewrite Hg. exact (H (k, ch) (or_introl eq_refl)). }
  destruct (mix_channel now duck_amount ch) as [[ch' lines] flow].
  cbn [snd] in Hf. subst flow.
  assert (IH' := IH (fun kc Hin => H kc (or_intror Hin))).
  destruct (mix_loop now duck_amount rest commands) as [[rest' lines'] r].
  exact IH'.
Qed.

(** X10.  Channels whose group is none of drums, band, vocals and speech
    (the default "ignore", or anything unrecognised) are left alone: a table
    of such channels publishes nothing and never raises, whatever their ids
    and whatever the telemetry. *)
Theorem no_policy_no_command now levels b :
  (forall k ch, In (k, ch) (channels b) -> has_policy (group ch) = false) ->
  published (process_telemetry now levels b) = []
  /\ raised (process_telemetry now levels b) = false.
Proof.
  intros H.
  destruct (process_telemetry_pass now levels b) as (chs & m & _ & Hup & ->).
  assert (Hs : snd (mix_loop now (if m >? -35.0 then -4.0 else 0.0) chs [])
               = Some []).
  { apply mix_loop_silent. intros [k' ch'] Hin.
    destruct (Forall2_In_r _ _ _ _ Hup Hin) as ([k ch] & Hin0 & Hk & Hset & _).
    cbn [fst snd] in *. subst k'.
    destruct Hset as (_ & _ & Hg & _). rewrite Hg. exact (H k ch Hin0). }
  unfold run_mixing_logic, duck_amount_of. cbn [channels speech_active].
  destruct (mix_loop now (if m >? -35.0 then -4.0 else 0.0) chs [])
    as [[chs' lines] r].
  cbn [snd] in Hs. subst r. auto.
Qed.

Lemma no_policy_no_command_witness :
  published (process_telemetry 100 [("x"%string, -3.0)]
               (brain_of [("x"%string, ChannelStrip_init "x" (group_only "fx"))] false))
  = []
  /\ raised (process_telemetry 100 [("x"%string, -3.0)]
               (brain_of [("x"%string, ChannelStrip_init "x" (group_only "fx"))] false))
     = false.
Proof.
  apply (no_policy_no_command 100 [("x"%string, -3.0)]
           (brain_of [("x"%string, ChannelStrip_init "x" (group_only "fx"))] false)).
  intros k ch [[= <- <-]|[]]. reflexivity.
Defined.

(** ** What the published commands look like *)

Lemma mix_channel_append_source now duck_amount ch ch' lines cmd :
  mix_channel now duck_amount ch = (ch', lines, Append cmd) ->
  exists target_db n,
    new_target_db duck_amount ch = Some target_db
    /\ Py.int (id ch) = Some n
    /\ cmd = bus11_command n (db_to_fader target_db).
Proof.
  unfold mix_channel.
  destruct (check_override now ch) as [[ch1 lines1]|] eqn:Hc; [|discriminate].
  destruct (check_override_fields now ch ch1 lines1 Hc) as (Hi & _ & Hg & Hd & _).
  rewrite (new_target_db_ext duck_amount ch ch1 Hg Hd), Hi.
  destruct (new_target_db duck_amount ch) as [t|]; [|discriminate].
  destruct (Py.int (id ch)) as [n|]; [|discriminate].
  intros [= _ _ <-]. exists t, n. auto.
Qed.

(** A property that every channel of the table gives its command holds of
    the batch. *)
Lemma mix_loop_batch_in (P : Command -> Prop) now duck_amount chs :
  (forall k ch ch' lines cmd,
      In (k, ch) chs ->
      mix_channel now duck_amount ch = (ch', lines, Append cmd) -> P cmd) ->
  forall commands,
    Forall P commands ->
    match snd (mix_loop now duck_amount chs commands) with
    | Some batch => Forall P batch
    | None => True
    end.
Proof.
  induction chs as [|[k ch] rest IH]; intros HP commands Hacc; cbn [mix_loop].
  - exact Hacc.
  - assert (IH' := IH (fun k0 ch0 ch' lines cmd Hin =>
                         HP k0 ch0 ch' lines cmd (or_intror Hin))).
    destruct (mix_channel now duck_amount ch) as [[ch' lines] flow] eqn:E.
    destruct flow as [|cmd|].
    + specialize (IH' commands Hacc).
      destruct (mix_loop now duck_amount rest commands) as [[rest' lines'] r].
      exact IH'.
    + assert (Hacc' : Forall P (commands ++ [cmd])%list).
      { apply Forall_app. split; [exact Hacc|].
        constructor; [|constructor].
        exact (HP k ch ch' lines cmd (or_introl eq_refl) E). }
      specialize (IH' _ Hacc').
      destruct (mix_loop now duck_amount rest (commands ++ [cmd])%list)
        as [[rest' lines'] r].
      exact IH'.
    + exact I.
Qed.

Lemma has_target_has_policy duck_amount ch target_db :
  new_target_db duck_amount ch = Some target_db -> has_policy (group ch) = true.
Proof.
  intros H. destruct (has_policy (group ch)) eqn:E; [reflexivity|].
  rewrite (no_policy_no_target duck_amount ch E) in H. discriminate.
Qed.

(** X11.  Every command a decision cycle publishes belongs to a channel of
    the table that has a policy and whose id is a number: its address is
    [/ch/{2-digit-id}/mix/11/level] for that number, and its single argument
    is unity, 0.75, or, only in a cycle whose gate is open, the ducked
    0.65. *)
Theorem published_commands_shape now levels b :
  let r := process_telemetry now levels b in
  Forall (fun cmd =>
            exists k ch n v,
              In (k, ch) (channels b)
              /\ has_policy (group ch) = true
              /\ Py.int (id ch) = Some n
              /\ address cmd = ("/ch/" ++ Py.format_02d n ++ "/mix/11/level")%string
              /\ args cmd = [v]
              /\ (v == 0.75 \/ (speech_active (brain r) = true /\ v == 0.65)))
    (published r).
Proof.
  cbv zeta.
  rewrite process_telemetry_gate.
  destruct (process_telemetry_pass now levels b) as (chs & m & -> & Hup & ->).
  cbn [snd].
  set (gate := m >? -35.0).
  assert (H : match snd (mix_loop now (if gate then -4.0 else 0.0) chs []) with
              | Some batch =>
                  Forall
                    (fun cmd =>
                       exists k ch n v,
                         In (k, ch) (channels b)
                         /\ has_policy (group ch) = true
                         /\ Py.int (id ch) = Some n
                         /\ address cmd
                            = ("/ch/" ++ Py.format_02d n ++ "/mix/11/level")%string
                         /\ args cmd = [v]
                         /\ (v == 0.75 \/ (gate = true /\ v == 0.65)))
                    batch
              | None => True
              end).
  { apply mix_loop_batch_in; [|constructor].
    intros k' ch' ch1 lines1 cmd Hin Hmix.
    apply mix_channel_append_source in Hmix as (t & n & Ht & Hn & ->).
    destruct (Forall2_In_r _ _ _ _ Hup Hin) as ([k ch] & Hin0 & Hk & Hset & _).
    cbn [fst snd] in *. subst k'.
    destruct Hset as (Hi & _ & Hg & _).
    exists k, ch, n, (db_to_fader t).
    split; [exact Hin0|].
    split; [rewrite <- Hg; exact (has_target_has_policy _ _ _ Ht)|].
    split; [rewrite <- Hi; exact Hn|].
    split; [reflexivity|]. split; [reflexivity|].
    apply new_target_db_values in Ht.
    destruct Ht as [-> | ->]; [destruct gate|].
    - right. split; [reflexivity | vm_compute; reflexivity].
    - left. vm_compute. reflexivity.
    - left. vm_compute. reflexivity. }
  unfold run_mixing_logic, duck_amount_of. cbn [channels speech_active].
  destruct (mix_loop now (if gate then -4.0 else 0.0) chs []) as [[chs' lines] r].
  cbn [snd published] in *.
  destruct r as [batch|]; [exact H | constructor].
Qed.

(** ** The order of the readings *)

Lemma update_comm {V : Type} k k' (f g : V -> V) (d : Py.dict V) :
  k <> k' ->
  Py.update k f (Py.update k' g d) = Py.update k' g (Py.update k f d).
Proof.
  intros Hne.
  induction d as [|[k0 v] d IH]; cbn [Py.update]; [reflexivity|].
  destruct (k =? k0)%string eqn:E, (k' =? k0)%string eqn:E'; cbn [Py.update];
    rewrite ?E, ?E'; try reflexivity.
  - apply String.eqb_eq in E, E'. congruence.
  - now rewrite IH.
Qed.

Lemma update_loop_store levels (chs : Py.dict ChannelStrip) m :
  fst (fold_left update_level levels (chs, m)) = store_levels levels chs.
Proof.
  revert chs m.
  induction levels as [|[ch_id db_val] rest IH]; intros chs m; [reflexivity|].
  cbn [fold_left store_levels fst snd].
  pose proof (update_level_fst chs m ch_id db_val) as Hf.
  destruct (update_level (chs, m) (ch_id, db_val)) as [chs1 m1].
  cbn [fst] in Hf. subst chs1. apply IH.
Qed.

Lemma store_levels_perm levels levels' :
  Permutation levels levels' ->
  NoDup (map fst levels) ->
  forall chs, store_levels levels chs = store_levels levels' chs.
Proof.
  induction 1 as [|x l l' Hp IH|x y l|l l' l'' Hp1 IH1 Hp2 IH2];
    intros Hnd chs.
  - reflexivity.
  - cbn [map] in Hnd. inversion Hnd; subst.
    unfold store_levels. cbn [fold_left]. now apply IH.
  - cbn [map] in Hnd. inversion Hnd as [|? ? Hy Hnd']; subst.
    unfold store_levels. cbn [fold_left]. f_equal.
    apply update_comm. intros Heq. apply Hy. left. exact Heq.
  - rewrite IH1 by exact Hnd. apply IH2.
    apply (Permutation_NoDup (Permutation_map fst Hp1) Hnd).
Qed.

Lemma existsb_perm {A : Type} (f : A -> bool) l l' :
  Permutation l l' -> existsb f l = existsb f l'.
Proof.
  induction 1 as [|x l l' _ IH|x y l|l l' l'' _ IH1 _ IH2]; cbn [existsb].
  - reflexivity.
  - now rewrite IH.
  - now destruct (f x), (f y).
  - now rewrite IH1.
Qed.

(** X12.  The telemetry payload is a JSON object, so its ids are distinct;
    the order in which it lists them does not matter.  Two messages with the
    same readings in different orders end the cycle in the same brain, with
    the same log lines and commands. *)
Theorem reading_order_irrelevant now levels levels' b :
  NoDup (map fst levels) ->
  Permutation levels levels' ->
  process_telemetry now levels' b = process_telemetry now levels b.
Proof.
  intros Hnd Hp.
  assert (Hs : fst (update_levels levels' (channels b))
               = fst (update_levels levels (channels b))).
  { unfold update_levels. rewrite !update_loop_store.
    symmetry. now apply store_levels_perm. }
  assert (Hg : (snd (update_levels levels' (channels b)) >? -35.0)
               = (snd (update_levels levels (channels b)) >? -35.0)).
  { unfold update_levels.
    destruct (update_loop_gate (channels b) levels (channels b) (-90.0)
                (same_groups_refl _)) as [-> _].
    destruct (update_loop_gate (channels b) levels' (channels b) (-90.0)
                (same_groups_refl _)) as [-> _].
    f_equal. symmetry. now apply existsb_perm. }
  unfold process_telemetry.
  destruct (update_levels levels' (channels b)) as [chs' m'].
  destruct (update_levels levels (channels b)) as [chs m].
  cbn [fst snd] in Hs, Hg. now rewrite Hs, Hg.
Qed.

Lemma reading_order_irrelevant_witness :
  process_telemetry 100 [("2"%string, -40.0); ("1"%string, -20.0)] scenario_brain
  = process_telemetry 100 scenario_levels scenario_brain.
Proof.
  apply (reading_order_irrelevant 100 scenario_levels
           [("2"%string, -40.0); ("1"%string, -20.0)] scenario_brain).
  - repeat constructor; cbn; intuition discriminate.
  - apply perm_swap.
Defined.

(** ** Channel numbers as text *)

Lemma digits_of_uint d :
  d <> Decimal.Nil ->
  Py.int (NilZero.string_of_uint d) = Some (Z.of_uint d)
  /\ Py.digits (NilZero.string_of_uint d) = Some (Z.of_uint d).
Proof.
  intros Hd.
  assert (H : Py.digits (NilZero.string_of_uint d) = Some (Z.of_uint d)).
  { unfold Py.digits. now rewrite NilZero.usu. }
  split; [|exact H].
  rewrite <- H.
  destruct d; try contradiction; reflexivity.
Qed.

(** [int(str(n)) == n] *)
Lemma int_str n : Py.int (Py.str n) = Some n.
Proof.
  unfold Py.str.
  rewrite <- (DecimalZ.of_to n) at 2.
  destruct n as [|p|p]; [reflexivity| |].
  - cbn [Z.to_int NilZero.string_of_int Z.of_int].
    apply digits_of_uint. apply Unsigned.to_uint_nonnil.
  - cbn [Z.to_int NilZero.string_of_int Z.of_int].
    change (Py.int (String "-" (NilZero.string_of_uint (Pos.to_uint p))))
      with (option_map Z.opp (Py.digits (NilZero.string_of_uint (Pos.to_uint p)))).
    rewrite (proj2 (digits_of_uint _ (Unsigned.to_uint_nonnil p))).
    reflexivity.
Qed.

Lemma str_inj n n' : Py.str n = Py.str n' -> n = n'.
Proof.
  intros H. pose proof (int_str n) as Hn. rewrite H, int_str in Hn. congruence.
Qed.

(** X13.  The channel field of an address.  A channel whose id is the
    decimal text of a number n reads back as n; and for n from 0 to 99 the
    field [{n:02d}] has exactly two characters, which read back as n, so that
    channels with different numbers get different addresses. *)
Theorem channel_number_in_address n :
  (0 <= n < 100)%Z ->
  Py.int (Py.str n) = Some n
  /\ String.length (Py.format_02d n) = 2%nat
  /\ Py.int (Py.format_02d n) = Some n.
Proof.
  intros Hn. split; [apply int_str|].
  assert (Hall : forallb
                   (fun i =>
                      let z := Z.of_nat i in
                      (String.length (Py.format_02d z) =? 2)%nat
                      && match Py.int (Py.format_02d z) with
                         | Some m => (m =? z)%Z
                         | None => false
                         end)
                   (seq 0 100) = true) by (vm_compute; reflexivity).
  rewrite forallb_forall in Hall.
  assert (Hin : In (Z.to_nat n) (seq 0 100)).
  { apply in_seq. lia. }
  specialize (Hall _ Hin). cbv zeta in Hall.
  assert (Hz : Z.of_nat (Z.to_nat n) = n).
  { apply Z2Nat.id. lia. }
  rewrite Hz in Hall. apply andb_true_iff in Hall as [H1 H2].
  apply Nat.eqb_eq in H1. split; [exact H1|].
  destruct (Py.int (Py.format_02d n)) as [m|]; [|discriminate].
  apply Z.eqb_eq in H2. now subst m.
Qed.

Lemma channel_number_in_address_witness :
  Py.int (Py.str 7) = Some 7%Z
  /\ String.length (Py.format_02d 7) = 2%nat
  /\ Py.int (Py.format_02d 7) = Some 7%Z.
Proof. apply (channel_number_in_address 7). lia. Defined.

(** ** The telemetry message of the edge node *)

Lemma telemetry_keys (l : list Q) s :
  map fst (map telemetry_entry (combine (seq s (List.length l)) l))
  = map (fun i => Py.str (Z.of_nat i + 1)) (seq s (List.length l)).
Proof.
  revert s. induction l as [|x l IH]; intros s; [reflexivity|].
  cbn [List.length seq combine map fst telemetry_entry]. now rewrite IH.
Qed.

Lemma telemetry_keys_distinct (l : list Q) :
  NoDup (map fst (map telemetry_entry (Edge.enumerate l))).
Proof.
  unfold Edge.enumerate. rewrite telemetry_keys.
  generalize (seq_NoDup (List.length l) 0).
  generalize (seq 0 (List.length l)) as idx.
  induction idx as [|i idx IH]; intros Hnd; cbn [map]; [constructor|].
  inversion Hnd as [|? ? Hi Hnd']; subst. constructor; [|now apply IH].
  intros Hin. apply in_map_iff in Hin as (j & Hj & Hin).
  apply str_inj in Hj. apply Hi. replace i with j by lia. exact Hin.
Qed.

Lemma telemetry_loop_distinct (es : list (nat * Q)) (acc : Py.dict Q) :
  NoDup (map fst acc ++ map fst (map telemetry_entry es)) ->
  fold_left (fun d '(i, lvl) => Py.set (Py.str (Z.of_nat i + 1)) lvl d) es acc
  = (acc ++ map telemetry_entry es)%list.
Proof.
  revert acc.
  induction es as [|[i lvl] es IH]; intros acc Hnd; cbn [fold_left map].
  - now rewrite app_nil_r.
  - cbn [map fst telemetry_entry snd] in Hnd.
    rewrite set_fresh.
    + rewrite IH.
      * rewrite <- app_assoc. reflexivity.
      * rewrite map_app. cbn [map fst]. rewrite <- app_assoc. exact Hnd.
    + apply NoDup_remove_2 in Hnd. intros Hin. apply Hnd.
      apply in_or_app. now left.
Qed.

Lemma telemetry_data_entries (l : list Q) :
  Edge.telemetry_data l = map telemetry_entry (Edge.enumerate l).
Proof.
  unfold Edge.telemetry_data.
  apply (telemetry_loop_distinct (Edge.enumerate l) []).
  apply telemetry_keys_distinct.
Qed.

Lemma enumerate_nth (l : list Q) s i lvl :
  nth_error l i = Some lvl ->
  In ((s + i)%nat, lvl) (combine (seq s (List.length l)) l).
Proof.
  revert s i. induction l as [|x l IH]; intros s [|i] H; cbn in H;
    try discriminate.
  - injection H as ->. left. f_equal. lia.
  - right. cbn [List.length seq combine].
    replace (s + S i)%nat with (S s + i)%nat by lia. now apply IH.
Qed.

(** X14.  The telemetry message holds exactly one reading per meter
    channel, in the order of the snapshot: the reading of index i is stored
    under the key [str(i+1)], no key occurs twice, and looking a key up gives
    back that reading. *)
Theorem telemetry_message_complete (snapshot : list Q) :
  Edge.telemetry_data snapshot
  = map (fun e => (Py.str (Z.of_nat (fst e) + 1), snd e))
      (Edge.enumerate snapshot)
  /\ NoDup (map fst (Edge.telemetry_data snapshot))
  /\ forall i lvl,
      nth_error snapshot i = Some lvl ->
      Py.get (Py.str (Z.of_nat i + 1)) (Edge.telemetry_data snapshot) = Some lvl.
Proof.
  split; [apply telemetry_data_entries|].
  rewrite telemetry_data_entries.
  split; [apply telemetry_keys_distinct|].
  intros i lvl H.
  pose proof (enumerate_nth snapshot 0 i lvl H) as Hin.
  pose proof (telemetry_keys_distinct snapshot) as Hnd.
  unfold Edge.enumerate in *. cbn [Nat.add] in Hin.
  revert Hin Hnd.
  generalize (combine (seq 0 (List.length snapshot)) snapshot) as es.
  induction es as [|[j x] es IH]; intros Hin Hnd; [destruct Hin|].
  cbn [map telemetry_entry fst snd Py.get] in *.
  destruct Hin as [[= -> ->]|Hin].
  - now rewrite String.eqb_refl.
  - inversion Hnd as [|? ? Hj Hnd']; subst.
    destruct (Py.str (Z.of_nat i + 1) =? Py.str (Z.of_nat j + 1))%string eqn:E.
    + apply String.eqb_eq in E. exfalso. apply Hj. rewrite <- E.
      apply in_map_iff. exists (Py.str (Z.of_nat i + 1), lvl).
      split; [reflexivity|].
      apply in_map_iff. exists (i, lvl). split; [reflexivity | exact Hin].
    + now apply IH.
Qed.

Lemma telemetry_message_complete_witness :
  Py.get (Py.str (Z.of_nat 1 + 1)) (Edge.telemetry_data [-20.0; -40.0; -90.0])
  = Some (-40.0).
Proof.
  apply (proj2 (proj2 (telemetry_message_complete [-20.0; -40.0; -90.0])) 1%nat).
  reflexivity.
Defined.

(** X15.  From meter to table.  When the brain processes the message the
    edge builds from a snapshot, each configured channel whose key is the
    number i+1 ends the cycle with the reading of index i of the snapshot as
    its [current_dbfs]. *)
Theorem meter_reaches_channel now snapshot b i lvl :
  nth_error snapshot i = Some lvl ->
  Py.mem (Py.str (Z.of_nat i + 1)) (channels b) = true ->
  exists ch,
    Py.get (Py.str (Z.of_nat i + 1))
      (channels (brain (process_telemetry now (Edge.telemetry_data snapshot) b)))
    = Some ch
    /\ current_dbfs ch = lvl.
Proof.
  intros Hnth Hmem.
  set (key := Py.str (Z.of_nat i + 1)) in *.
  assert (Hin : In (key, lvl) (Edge.telemetry_data snapshot)).
  { rewrite telemetry_data_entries. apply in_map_iff. exists (i, lvl).
    split; [reflexivity|]. exact (enumerate_nth snapshot 0 i lvl Hnth). }
  assert (Hnd : NoDup (map fst (Edge.telemetry_data snapshot))).
  { rewrite telemetry_data_entries. apply telemetry_keys_distinct. }
  pose proof (update_loop_sets (Edge.telemetry_data snapshot) key lvl
                (channels b) (-90.0) Hnd Hin Hmem) as H.
  unfold process_telemetry, update_levels.
  destruct (fold_left update_level (Edge.telemetry_data snapshot)
              (channels b, -90.0)) as [chs m].
  cbn [fst] in H.
  destruct (Py.get key chs) as [ch1|] eqn:E; [|discriminate].
  injection H as H.
  destruct (get_related (only_override_cleared now) key _ _ ch1
              (run_mixing_logic_channels now
                 {| channels := chs; speech_active := m >? -35.0;
                    TARGET_BUS_IDX := TARGET_BUS_IDX b |}) E)
    as (ch2 & Hget & Hrel).
  exists ch2. split; [exact Hget|].
  destruct Hrel as [-> | (_ & _ & ->)]; exact H.
Qed.

Lemma meter_reaches_channel_witness :
  exists ch,
    Py.get (Py.str (Z.of_nat 1 + 1))
      (channels (brain (process_telemetry 100
                          (Edge.telemetry_data [-20.0; -40.0; -90.0])
                          scenario_brain)))
    = Some ch
    /\ current_dbfs ch = -40.0.
Proof.
  apply (meter_reaches_channel 100 [-20.0; -40.0; -90.0] scenario_brain 1%nat).
  - reflexivity.
  - reflexivity.
Defined.

(** ** The pace of the telemetry *)

(** X16.  Over any run of wake-ups of [telemetry_loop], with any clock
    readings and any publish failures, two messages that reached the bus one
    after the other were published at least [TELEMETRY_INTERVAL] (0.2 s)
    apart, and the first at least that long after the starting
    [last_telemetry_time]. *)
Theorem telemetry_spaced ticks last_telemetry_time :
  spaced last_telemetry_time
    (map fst (Edge.telemetry_loop ticks last_telemetry_time)).
Proof.
  revert last_telemetry_time.
  induction ticks as [|tick rest IH]; intros last; cbn [Edge.telemetry_loop map];
    [exact I|].
  unfold Edge.telemetry_step.
  destruct (Edge.current_time tick - last >=? Edge.TELEMETRY_INTERVAL) eqn:E.
  - destruct (Edge.publish_error tick) as [e|].
    + apply IH.
    + cbn [map fst spaced]. split; [now apply ge_true in E | apply IH].
  - apply IH.
Qed.

(** ** The relay *)

Lemma published_addresses_nonempty now b :
  Forall (fun cmd => (address cmd =? "")%string = false)
    (published (run_mixing_logic now b)).
Proof.
  pose proof (mix_loop_batch
                (fun cmd => (address cmd =? "")%string = false)
                now (duck_amount_of b)) as H.
  assert (Hs : forall ch ch' lines cmd,
             mix_channel now (duck_amount_of b) ch = (ch', lines, Append cmd) ->
             (address cmd =? "")%string = false).
  { intros ch ch' lines cmd Hm.
    apply mix_channel_append_inv in Hm as (t & n & _ & ->). reflexivity. }
  specialize (H Hs (channels b) [] (Forall_nil _)).
  unfold run_mixing_logic.
  destruct (mix_loop now (duck_amount_of b) (channels b) []) as [[chs lines] r].
  cbn [snd published] in *. destruct r; [exact H | constructor].
Qed.

(** X17.  From brain to console.  Every command a decision cycle publishes
    passes the relay's test on its address: the edge node sends each of them
    to the console, once, in the order published, with the same address and
    the same args. *)
Theorem relay_forwards_every_command now levels b :
  flat_map (fun cmd => Edge.on_mqtt_message (on_the_wire cmd))
    (published (process_telemetry now levels b))
  = map (fun cmd => (address cmd, Some (args cmd)))
      (published (process_telemetry now levels b)).
Proof.
  destruct (process_telemetry_pass now levels b) as (chs & m & _ & _ & ->).
  pose proof (published_addresses_nonempty now
                {| channels := chs; speech_active := m >? -35.0;
                   TARGET_BUS_IDX := TARGET_BUS_IDX b |}) as H.
  induction H as [|cmd l Hc _ IH]; [reflexivity|].
  cbn [flat_map map]. rewrite IH.
  unfold Edge.on_mqtt_message, on_the_wire.
  cbn [Edge.payload_address Edge.payload_args]. now rewrite Hc.
Qed.

(** ** Levels that a message does not mention *)

(** X18.  A cycle changes [current_dbfs] only for the ids its message
    names: a channel whose key is not in the message keeps the level of its
    last reading, and that is the level the vocal policy judges it by. *)
Theorem unmentioned_level_kept now levels b k ch :
  ~ In k (map fst levels) ->
  Py.get k (channels b) = Some ch ->
  exists ch',
    Py.get k (channels (brain (process_telemetry now levels b))) = Some ch'
    /\ current_dbfs ch' = current_dbfs ch.
Proof.
  intros Hk Hget.
  pose proof (update_loop_other levels k (channels b) (-90.0) Hk) as H.
  unfold process_telemetry, update_levels.
  destruct (fold_left update_level levels (channels b, -90.0)) as [chs m].
  cbn [fst] in H. rewrite Hget in H.
  destruct (Py.get k chs) as [ch1|] eqn:E; [|discriminate].
  injection H as H.
  destruct (get_related (only_override_cleared now) k _ _ ch1
              (run_mixing_logic_channels now
                 {| channels := chs; speech_active := m >? -35.0;
                    TARGET_BUS_IDX := TARGET_BUS_IDX b |}) E)
    as (ch2 & Hget2 & Hrel).
  exists ch2. split; [exact Hget2|].
  destruct Hrel as [-> | (_ & _ & ->)]; exact H.
Qed.

Lemma unmentioned_level_kept_witness :
  exists ch',
    Py.get "3"
      (channels (brain (process_telemetry 100 scenario_levels
                          (brain_of [("3"%string, vocals_3 (-12.0))] false))))
    = Some ch'
    /\ current_dbfs ch' = current_dbfs (vocals_3 (-12.0)).
Proof.
  apply (unmentioned_level_kept 100 scenario_levels
           (brain_of [("3"%string, vocals_3 (-12.0))] false)
           "3"%string (vocals_3 (-12.0))).
  - cbn. intuition discriminate.
  - reflexivity.
Defined.

(** ** The vocal deadband as an interval *)

(** X19.  A vocal channel that is not overridden and has a numeric id
    stays silent in a pass exactly when its level lies strictly between
    -20.0 and -16.0 dBFS; at -20.0, at -16.0 and outside it is sent its
    command. *)
Theorem vocal_deadband_interval now duck_amount ch n :
  group ch = "vocals"%string ->
  is_overridden ch = false ->
  Py.int (id ch) = Some n ->
  (emitted now duck_amount ch = []
   <-> -20.0 < current_dbfs ch /\ current_dbfs ch < -16.0)
  /\ (emitted now duck_amount ch = [bus11_command n (db_to_fader 0.0)]
      <-> current_dbfs ch <= -20.0 \/ -16.0 <= current_dbfs ch).
Proof.
  intros Hg Ho Hn.
  pose proof (not_overridden_check now ch Ho) as Hc.
  pose proof (new_target_db_vocals duck_amount ch Hg) as Ht.
  assert (Habs : Qabs (-18.0 - current_dbfs ch) < 2.0
                 <-> -20.0 < current_dbfs ch /\ current_dbfs ch < -16.0).
  { rewrite Qabs_Qlt_condition. split; intros [H1 H2]; split; lra. }
  destruct (Qabs (-18.0 - current_dbfs ch) <? 2.0) eqn:E.
  - assert (He : emitted now duck_amount ch = []).
    { unfold emitted. now rewrite (mix_channel_no_target _ _ _ _ _ Hc Ht). }
    apply lt_true in E. apply Habs in E.
    rewrite He. split; split; intros H; auto; try discriminate.
    destruct E. destruct H; lra.
  - assert (He : emitted now duck_amount ch
                 = [bus11_command n (db_to_fader 0.0)]).
    { exact (emitted_append _ _ _ _ _ _ _ Hc Ht Hn). }
    apply lt_false in E.
    assert (Hout : current_dbfs ch <= -20.0 \/ -16.0 <= current_dbfs ch).
    { destruct (Qlt_le_dec (-20.0) (current_dbfs ch)) as [H1|H1]; [|now left].
      destruct (Qlt_le_dec (current_dbfs ch) (-16.0)) as [H2|H2]; [|now right].
      exfalso. assert (H3 : Qabs (-18.0 - current_dbfs ch) < 2.0)
        by (apply Habs; auto). lra. }
    rewrite He. split; split; intros H; auto; try discriminate.
    destruct H. destruct Hout; lra.
Qed.

Lemma vocal_deadband_interval_witness :
  emitted 100 0.0 (vocals_3 (-20.0)) = [bus11_command 3 (db_to_fader 0.0)]
  /\ emitted 100 0.0 (vocals_3 (-19.9)) = [].
Proof.
  split.
  - apply (proj2 (vocal_deadband_interval 100 0.0 (vocals_3 (-20.0)) 3
                    eq_refl eq_refl eq_refl)).
    left. discriminate.
  - apply (proj1 (vocal_deadband_interval 100 0.0 (vocals_3 (-19.9)) 3
                    eq_refl eq_refl eq_refl)).
    split; reflexivity.
Defined.
